(** * gateway-service: the authentication gate, the identity verifier, the
    route table and the startup checks of the edge gateway.

    Sources: [handler/Gateway.go] (NewGateway, AuthMiddleware, ProxyHandler,
    validateJWT) and [main.go] (configuration, route registration).

    Go strings are byte strings, modelled as [string] (one [ascii] per byte).
    [http.Header] is a [map[string][]string], modelled as
    [gmap string (list string)].  Handlers thread a [World] that records the
    lines written to the logger and the calls issued through [g.Client]. *)

From Stdlib Require Import ZArith Ascii DecimalString.
From stdpp Require Import base option list gmap strings.

Local Open Scope Z_scope.

(** ** Go's [strings] package, the part the gateway uses *)
Module strings.

(** [strings.HasPrefix(s, prefix)]. *)
Definition HasPrefix (s prefix : string) : bool := String.prefix prefix s.

(** [strings.Split(s, " ")]: the gateway only ever splits on the one-byte
    separator [" "].  The result is never empty: a string without the
    separator comes back as the one-element list. *)
Fixpoint Split (s : string) (sep : ascii) : list string :=
  match s with
  | EmptyString => [EmptyString]
  | String c s' =>
      if Ascii.eqb c sep then EmptyString :: Split s' sep
      else match Split s' sep with
           | p :: ps => String c p :: ps
           | [] => [String c EmptyString]
           end
  end.

(** [strings.TrimRight(s, "/")], used by gorilla/mux when it glues a
    subrouter's template to its parent's. *)
Fixpoint TrimRight (s : string) (cut : ascii) : string :=
  match s with
  | EmptyString => EmptyString
  | String c s' =>
      match TrimRight s' cut with
      | EmptyString => if Ascii.eqb c cut then EmptyString else String c EmptyString
      | t => String c t
      end
  end.

(** [strings.TrimPrefix] as an option: [None] when [prefix] does not lead
    [s]. *)
Fixpoint CutPrefix (s prefix : string) {struct prefix} : option string :=
  match prefix, s with
  | EmptyString, _ => Some s
  | String a p', String b s' => if Ascii.eqb a b then CutPrefix s' p' else None
  | String _ _, EmptyString => None
  end.

(** No byte of [s] is [c]. *)
Fixpoint free_of (c : ascii) (s : string) : bool :=
  match s with
  | EmptyString => true
  | String a s' => negb (Ascii.eqb a c) && free_of c s'
  end.

(** [strings.Join(parts, sep)] for the one-byte separator. *)
Fixpoint Join (parts : list string) (sep : ascii) : string :=
  match parts with
  | [] => EmptyString
  | [p] => p
  | p :: ps => p +:+ String sep (Join ps sep)
  end.

(** [strings.Count(s, sep)] for the one-byte separator. *)
Fixpoint Count (s : string) (sep : ascii) : nat :=
  match s with
  | EmptyString => 0
  | String c s' => (if Ascii.eqb c sep then 1 else 0) + Count s' sep
  end.

End strings.

(** ** [net/textproto]: canonical header keys *)
Module textproto.

Definition isUpper (c : ascii) : bool :=
  (65 <=? Z.of_nat (nat_of_ascii c)) && (Z.of_nat (nat_of_ascii c) <=? 90).
Definition isLower (c : ascii) : bool :=
  (97 <=? Z.of_nat (nat_of_ascii c)) && (Z.of_nat (nat_of_ascii c) <=? 122).
Definition isDigit (c : ascii) : bool :=
  (48 <=? Z.of_nat (nat_of_ascii c)) && (Z.of_nat (nat_of_ascii c) <=? 57).

(** The token bytes of RFC 7230: letters, digits and a few marks. *)
Definition validHeaderFieldByte (c : ascii) : bool :=
  isUpper c || isLower c || isDigit c ||
  existsb (Ascii.eqb c)
    ["!"; "#"; "$"; "%"; "&"; "'"; "*"; "+"; "-"; "."; "^"; "_"; "`"; "|"; "~"]%char.

Definition toUpper (c : ascii) : ascii :=
  if isLower c then ascii_of_nat (nat_of_ascii c - 32) else c.
Definition toLower (c : ascii) : ascii :=
  if isUpper c then ascii_of_nat (nat_of_ascii c + 32) else c.

Fixpoint all_valid (s : string) : bool :=
  match s with
  | EmptyString => true
  | String c s' => validHeaderFieldByte c && all_valid s'
  end.

(** The rewriting loop of [canonicalMIMEHeaderKey]: upper-case the first
    byte and every byte after a hyphen, lower-case the others. *)
Fixpoint recase (upper : bool) (s : string) : string :=
  match s with
  | EmptyString => EmptyString
  | String c s' =>
      let c' := if upper then toUpper c else toLower c in
      String c' (recase (Ascii.eqb c' "-") s')
  end.

(** [CanonicalMIMEHeaderKey]: a key holding a byte that is not a token
    byte is returned as it is. *)
Definition CanonicalMIMEHeaderKey (s : string) : string :=
  if all_valid s then recase true s else s.

(** [strings.ToLower] on the ASCII letters. *)
Fixpoint ToLower (s : string) : string :=
  match s with
  | EmptyString => EmptyString
  | String c s' => String (toLower c) (ToLower s')
  end.

End textproto.

(** ** [net/http]: headers, requests, responses *)
Module http.

Definition StatusOK : Z := 200.
Definition StatusUnauthorized : Z := 401.

(** [Header.Get]: the first value stored under the canonical key, or the
    empty string. *)
Definition Header_Get (h : gmap string (list string)) (key : string) : string :=
  match h !! textproto.CanonicalMIMEHeaderKey key with
  | Some (v :: _) => v
  | _ => EmptyString
  end.

(** [Header.Values]: every value stored under the canonical key. *)
Definition Header_Values (h : gmap string (list string)) (key : string) : list string :=
  default [] (h !! textproto.CanonicalMIMEHeaderKey key).

(** [Header.Set]: replaces whatever is stored under the canonical key by
    the single value. *)
Definition Header_Set (h : gmap string (list string)) (key value : string)
  : gmap string (list string) :=
  <[textproto.CanonicalMIMEHeaderKey key := [value]]> h.

(** [Header.Del]. *)
Definition Header_Del (h : gmap string (list string)) (key : string)
  : gmap string (list string) :=
  delete (textproto.CanonicalMIMEHeaderKey key) h.

(** The inbound [*http.Request] as the handlers read it: [Path] is
    [r.URL.Path]. *)
Record Request := {
  Method : string;
  Path : string;
  RawQuery : string;
  Header : gmap string (list string);
  Body : string
}.

(** [r.Header.Set(key, value)]: the header map is updated in place and the
    same request is handed on, so the update is visible downstream. *)
Definition Request_SetHeader (r : Request) (key value : string) : Request :=
  {| Method := Method r; Path := Path r; RawQuery := RawQuery r;
     Header := Header_Set (Header r) key value; Body := Body r |}.

(** What a handler has written to its [http.ResponseWriter], with the field
    names of [httptest.ResponseRecorder]. *)
Record ResponseRecorder := {
  Code : Z;
  HeaderMap : gmap string (list string);
  Written : string
}.

Definition LF : string := String "010" EmptyString.

(** [http.Error(w, error, code)] on a writer nothing was written to. *)
Definition Error (error : string) (code : Z) : ResponseRecorder :=
  {| Code := code;
     HeaderMap :=
       Header_Set
         (Header_Set (Header_Del ∅ "Content-Length")
            "Content-Type" "text/plain; charset=utf-8")
         "X-Content-Type-Options" "nosniff";
     Written := error +:+ LF |}.

(** The request [g.Client] sends out and the response it gets back. *)
Record ClientRequest := {
  cMethod : string;
  cURL : string;
  cHeader : gmap string (list string)
}.

Record Response := {
  StatusCode : Z;
  RespBody : string
}.

End http.

(** ** The world a handler runs in *)

(** The lines handed to [g.Logger] and the requests issued through
    [g.Client], oldest first. *)
Record World := {
  Logs : list string;
  Calls : list http.ClientRequest
}.

Definition Handler : Type := http.Request -> World -> http.ResponseRecorder * World.

(** [AuthValidateResponse], the JSON body of the auth service's answer. *)
Record AuthValidateResponse := {
  UserID : string;
  Role : string;
  Username : string;
  Error : string
}.

(** A Go [error] is modelled by its message; [None] is [nil]. *)
Definition error : Type := string.

(** What the gateway takes from outside its own code: [url.Parse], the
    network and the auth service behind [g.Client.Do] (its answer may depend
    on the calls already made), [encoding/json] decoding into a zero
    [AuthValidateResponse] (the struct as the decoder left it, and its
    error), and the reverse proxies' [ServeHTTP]. *)
Class Platform := {
  URL : Type;
  url_Parse : string -> error + URL;
  client_Do : list http.ClientRequest -> http.ClientRequest -> error + http.Response;
  json_Decode : string -> AuthValidateResponse * option error;
  proxy_ServeHTTP : URL -> Handler
}.

(** ** Small pieces of [log], [strconv], [os] *)

(** [g.Logger.Printf(...)]: the formatted message is recorded; the prefix
    and the time stamp the logger adds are left out. *)
Definition Logger_Printf (w : World) (line : string) : World :=
  {| Logs := Logs w ++ [line]; Calls := Calls w |}.

(** The verb [%d] of [fmt] on an [int]. *)
Definition Itoa (n : Z) : string := NilZero.string_of_int (Z.to_int n).

(** [os.Getenv]: the empty string for a variable that is not set. *)
Definition Getenv (env : gmap string string) (key : string) : string :=
  default EmptyString (env !! key).

(** The verb [%q] of [fmt] on a string without characters to escape. *)
Definition Quote (s : string) : string := String "034" (s +:+ String "034" EmptyString).

(** [s == ""] and [s != ""]. *)
Definition is_empty (s : string) : bool := bool_decide (s = EmptyString).

(** ** Package [handler] *)
Module handler.
Section Gateway.
Context `{Platform}.

Record Config := {
  AuthServiceURL : string;
  BlogServiceURL : string;
  UserServiceURL : string;
  AspServiceURL : string
}.

(** [httputil.ReverseProxy] built by [NewSingleHostReverseProxy]: known by
    its target. *)
Record ReverseProxy := NewSingleHostReverseProxy { Target : URL }.

(** The [Logger] and the [Client] fields live in the [World] and in the
    [Platform]. *)
Record Gateway := {
  GConfig : Config;
  AuthProxy : ReverseProxy;
  BlogProxy : ReverseProxy;
  UserProxy : ReverseProxy;
  AspProxy : ReverseProxy
}.

(** [NewGateway]: each of the four addresses goes through [url.Parse]; the
    first that fails aborts the construction. *)
Definition NewGateway (config : Config) : error + Gateway :=
  match url_Parse (AuthServiceURL config) with
  | inl err => inl ("invalid auth service URL: " +:+ err)
  | inr authURL =>
  match url_Parse (BlogServiceURL config) with
  | inl err => inl ("invalid blog service URL: " +:+ err)
  | inr blogURL =>
  match url_Parse (UserServiceURL config) with
  | inl err => inl ("invalid user service URL: " +:+ err)
  | inr userURL =>
  match url_Parse (AspServiceURL config) with
  | inl err => inl ("invalid asp service URL: " +:+ err)
  | inr aspURL =>
      inr {| GConfig := config;
             AuthProxy := NewSingleHostReverseProxy authURL;
             BlogProxy := NewSingleHostReverseProxy blogURL;
             UserProxy := NewSingleHostReverseProxy userURL;
             AspProxy := NewSingleHostReverseProxy aspURL |}
  end end end end.

(** [http.NewRequest(method, url, nil)]: an empty method stands for GET; a
    method that is not a token and a URL that [url.Parse] refuses are
    errors. *)
Definition NewRequest (method url : string) : error + http.ClientRequest :=
  let method := if is_empty method then "GET" else method in
  if negb (textproto.all_valid method)
  then inl ("net/http: invalid method " +:+ Quote method)
  else match url_Parse url with
       | inl err => inl err
       | inr _ => inr {| http.cMethod := method; http.cURL := url; http.cHeader := ∅ |}
       end.

(** [g.Client.Do(req)]: the call is recorded, the platform answers. *)
Definition Client_Do (req : http.ClientRequest) (w : World)
  : (error + http.Response) * World :=
  (client_Do (Calls w) req, {| Logs := Logs w; Calls := Calls w ++ [req] |}).

Definition failed (err : error) : string * string * string * option error :=
  (EmptyString, EmptyString, EmptyString, Some err).

(** [validateJWT]: asks the auth service whether [token] is valid.  Returns
    [(userID, role, username, err)] as the Go function does. *)
Definition validateJWT (g : Gateway) (token : string) (w : World)
  : (string * string * string * option error) * World :=
  let w := Logger_Printf w "Authorizing... Forwarding requet" in
  match NewRequest "POST" (AuthServiceURL (GConfig g) +:+ "/api/auth/jwt") with
  | inl err => (failed ("failed to create validation request: " +:+ err), w)
  | inr req =>
      let req := {| http.cMethod := http.cMethod req; http.cURL := http.cURL req;
                    http.cHeader :=
                      http.Header_Set (http.cHeader req) "Authorization"
                        ("Bearer " +:+ token) |} in
      let '(res, w) := Client_Do req w in
      match res with
      | inl err => (failed ("failed to contact AuthService: " +:+ err), w)
      | inr resp =>
          if negb (http.StatusCode resp =? http.StatusOK) then
            let '(authResp, err) := json_Decode (http.RespBody resp) in
            if bool_decide (err = None) && negb (is_empty (Error authResp))
            then (failed ("AuthService error: " +:+ Error authResp), w)
            else (failed ("AuthService returned status: "
                            +:+ Itoa (http.StatusCode resp)), w)
          else
            let '(authResp, err) := json_Decode (http.RespBody resp) in
            match err with
            | Some err =>
                (failed ("failed to decode AuthService response: " +:+ err), w)
            | None =>
                if is_empty (UserID authResp) || is_empty (Role authResp)
                then (failed "invalid AuthService response: missing userID or role", w)
                else ((UserID authResp, Role authResp, Username authResp, None), w)
            end
      end
  end.

(** [AuthMiddleware]: validates the JWT for protected routes. *)
Definition AuthMiddleware (g : Gateway) (next : Handler) : Handler :=
  fun r w =>
    (* Skip auth for /api/auth/* *)
    if strings.HasPrefix (http.Path r) "/api/auth/" then next r w
    else
      let authHeader := http.Header_Get (http.Header r) "Authorization" in
      if is_empty authHeader
      then (http.Error "missing Authorization header" http.StatusUnauthorized, w)
      else
        let parts := strings.Split authHeader " " in
        if negb (Nat.eqb (length parts) 2)
           || negb (String.eqb (nth 0 parts EmptyString) "Bearer")
        then (http.Error "invalid Authorization format" http.StatusUnauthorized, w)
        else
          let '(userID, role, username, err, w) :=
            validateJWT g (nth 1 parts EmptyString) w in
          match err with
          | Some err =>
              (http.Error "invalid JWT" http.StatusUnauthorized,
               Logger_Printf w ("JWT validation failed: " +:+ err))
          | None =>
              (* Add userID, role, and username to request headers *)
              let r := http.Request_SetHeader r "X-User-ID" userID in
              let r := http.Request_SetHeader r "X-User-Role" role in
              let r := http.Request_SetHeader r "X-Username" username in
              next r w
          end.

(** [ProxyHandler]: forwards requests to the target proxy. *)
Definition ProxyHandler (proxy : ReverseProxy) (targetURL : string) : Handler :=
  fun r w =>
    proxy_ServeHTTP (Target proxy) r
      (Logger_Printf w
         ("Forwarding " +:+ http.Method r +:+ " " +:+ http.Path r
            +:+ " to " +:+ targetURL)).

End Gateway.
End handler.

(** ** gorilla/mux, as far as [main] uses it *)
Module mux.
Section Router.
Context {H : Type}.

(** A route registered as
    [router.PathPrefix(prefix).Subrouter().HandleFunc("/{path:.*}", f)].
    The parent matcher is the regular expression [^prefix]; the subrouter's
    one route has the template [TrimRight(prefix, "/") + "/{path:.*}"],
    compiled to the text of that template, quoted, with the variable replaced
    by a group holding the pattern [.*], between the anchors [^] and [$]. *)
Record Route := {
  PathPrefix : string;
  RouteHandler : H
}.

(** The variable pattern [.*] anchored by [$]: Go's [.] matches every
    character but the line feed, and [$] only matches at the end of the
    text. *)
Definition path_var (rest : string) : bool := strings.free_of "010" rest.

(** [Route.Match]: every matcher of the route has to accept the path, the
    prefix first, then the subrouter. *)
Definition Route_Match (rt : Route) (path : string) : bool :=
  strings.HasPrefix path (PathPrefix rt)
  && match strings.CutPrefix path (strings.TrimRight (PathPrefix rt) "/" +:+ "/") with
     | Some rest => path_var rest
     | None => false
     end.

Record Router := {
  middlewares : list (H -> H);
  routes : list Route
}.

(** The loop of [Router.Match]: routes are tried in the order of their
    registration and the first that matches is taken. *)
Fixpoint first_match (rts : list Route) (path : string) : option Route :=
  match rts with
  | [] => None
  | rt :: rts' => if Route_Match rt path then Some rt else first_match rts' path
  end.

Definition Match (r : Router) (path : string) : option Route :=
  first_match (routes r) path.

(** [match.Handler] once [Router.Match] has wrapped the route's handler in
    the middlewares, the first registered outermost.  Without a matching
    route there is no handler and no middleware runs: the router answers
    404. *)
Definition MatchHandler (r : Router) (path : string) : option H :=
  (fun rt => foldr (fun mw h => mw h) (RouteHandler rt) (middlewares r))
    <$> Match r path.

End Router.
Arguments Route : clear implicits.
Arguments Router : clear implicits.
End mux.

(** ** Package [main] *)
Module main.
Section Main.
Context `{Platform}.
Import handler.

(** How [main] ends: [log.Fatal] before serving, or the server listening on
    [Addr] with the router as its handler. *)
Inductive Startup :=
| Fatal (msg : string)
| ListenAndServe (Addr : string) (router : mux.Router Handler).

Definition authRouter (gateway : Gateway) (config : Config) : mux.Route Handler :=
  {| mux.PathPrefix := "/api/auth";
     mux.RouteHandler := ProxyHandler (AuthProxy gateway) (AuthServiceURL config) |}.
Definition blogRouter (gateway : Gateway) (config : Config) : mux.Route Handler :=
  {| mux.PathPrefix := "/api/blog";
     mux.RouteHandler := ProxyHandler (BlogProxy gateway) (BlogServiceURL config) |}.
Definition userRouter (gateway : Gateway) (config : Config) : mux.Route Handler :=
  {| mux.PathPrefix := "/api/user";
     mux.RouteHandler := ProxyHandler (UserProxy gateway) (UserServiceURL config) |}.
Definition aspRouter (gateway : Gateway) (config : Config) : mux.Route Handler :=
  {| mux.PathPrefix := "/api/";
     mux.RouteHandler := ProxyHandler (AspProxy gateway) (AspServiceURL config) |}.

(** [router := mux.NewRouter(); router.Use(gateway.AuthMiddleware)] and the
    four registrations, in the order of the source. *)
Definition router (gateway : Gateway) (config : Config) : mux.Router Handler :=
  {| mux.middlewares := [AuthMiddleware gateway];
     mux.routes := [authRouter gateway config; blogRouter gateway config;
                    userRouter gateway config; aspRouter gateway config] |}.

(** [main] from the reading of the environment on; [env] is the process
    environment after [godotenv.Load]. *)
Definition configure (env : gmap string string) : Startup :=
  let config := {| AuthServiceURL := Getenv env "AUTH_SERVICE_URL";
                   BlogServiceURL := Getenv env "BLOG_SERVICE_URL";
                   UserServiceURL := Getenv env "USER_SERVICE_URL";
                   AspServiceURL := Getenv env "ASP_SERVICE_URL" |} in
  if is_empty (AuthServiceURL config) || is_empty (BlogServiceURL config)
     || is_empty (UserServiceURL config) || is_empty (AspServiceURL config)
  then Fatal "Missing required environment variables"
  else
    match NewGateway config with
    | inl err => Fatal ("Failed to initialize gateway:" +:+ err)
    | inr gateway =>
        let port := Getenv env "PORT" in
        let port := if is_empty port then "8080" else port in
        ListenAndServe (":" +:+ port) (router gateway config)
    end.

(** [main] of [main.go]: a [.env] file that cannot be loaded is fatal.
    [dotenv] is the error of [godotenv.Load]. *)
Definition main (dotenv : option error) (env : gmap string string) : Startup :=
  match dotenv with
  | Some err => Fatal ("Error loading .env file:" +:+ err)
  | None => configure env
  end.

(** The second [main] of the repository: a [.env] file that cannot be
    loaded only prints a warning, and the router is wrapped in the CORS
    handler before it is served. *)
Definition main_cors (dotenv : option error) (env : gmap string string) : Startup :=
  configure env.

End Main.
End main.

(** ** A sample platform to run the definitions on *)
Module sample.

Definition isControl (c : ascii) : bool :=
  (Z.of_nat (nat_of_ascii c) <? 32) || (Z.of_nat (nat_of_ascii c) =? 127).

Fixpoint hasControl (s : string) : bool :=
  match s with
  | EmptyString => false
  | String c s' => isControl c || hasControl s'
  end.

(** Refuses what [url.Parse] refuses first: a control character. *)
Definition Parse (s : string) : error + string :=
  if hasControl s then inl "net/url: invalid control character in URL" else inr s.

(** An auth service that knows four tokens and is unreachable for the
    others. *)
Definition Do (calls : list http.ClientRequest) (req : http.ClientRequest)
  : error + http.Response :=
  let a := http.Header_Get (http.cHeader req) "Authorization" in
  if String.eqb a "Bearer good"
  then inr {| http.StatusCode := 200; http.RespBody := "u1 admin alice" |}
  else if String.eqb a "Bearer half"
  then inr {| http.StatusCode := 200; http.RespBody := "- admin -" |}
  else if String.eqb a "Bearer expired"
  then inr {| http.StatusCode := 401; http.RespBody := "error: token expired" |}
  else if String.eqb a "Bearer odd"
  then inr {| http.StatusCode := 503; http.RespBody := "<html>" |}
  else inl "dial tcp: connection refused".

(** A decoder for the bodies of [Do]. *)
Definition Decode (body : string) : AuthValidateResponse * option error :=
  if String.eqb body "u1 admin alice"
  then ({| UserID := "u1"; Role := "admin"; Username := "alice"; Error := "" |}, None)
  else if String.eqb body "- admin -"
  then ({| UserID := ""; Role := "admin"; Username := ""; Error := "" |}, None)
  else if String.eqb body "error: token expired"
  then ({| UserID := ""; Role := ""; Username := ""; Error := "token expired" |}, None)
  else ({| UserID := ""; Role := ""; Username := ""; Error := "" |},
        Some "invalid character '<' looking for beginning of value").

(** A backend that answers with the identity it was told. *)
Definition Serve (target : string) : Handler :=
  fun r w =>
    ({| http.Code := 200; http.HeaderMap := ∅;
        http.Written := target +:+ " " +:+ http.Header_Get (http.Header r) "X-User-ID" |},
     w).

Definition platform : Platform :=
  {| URL := string; url_Parse := Parse; client_Do := Do;
     json_Decode := Decode; proxy_ServeHTTP := Serve |}.

Definition config : handler.Config :=
  {| handler.AuthServiceURL := "http://auth:8081";
     handler.BlogServiceURL := "http://blog:8082";
     handler.UserServiceURL := "http://user:8083";
     handler.AspServiceURL := "http://asp:8084" |}.

Definition target (s : string) : @handler.ReverseProxy platform :=
  @handler.NewSingleHostReverseProxy platform (s : @URL platform).

Definition gateway : @handler.Gateway platform :=
  {| handler.GConfig := config;
     handler.AuthProxy := target "http://auth:8081";
     handler.BlogProxy := target "http://blog:8082";
     handler.UserProxy := target "http://user:8083";
     handler.AspProxy := target "http://asp:8084" |}.

Definition env : gmap string string :=
  <["AUTH_SERVICE_URL" := "http://auth:8081"]>
    (<["BLOG_SERVICE_URL" := "http://blog:8082"]>
       (<["USER_SERVICE_URL" := "http://user:8083"]>
          (<["ASP_SERVICE_URL" := "http://asp:8084"]> ∅))).

Definition world0 : World := {| Logs := []; Calls := [] |}.

(** A request on [path] with the given [Authorization] value and a forged
    identity header. *)
Definition request (path authorization : string) : http.Request :=
  {| http.Method := "GET"; http.Path := path; http.RawQuery := "";
     http.Header := <["X-User-Id" := ["root"]]> (<["Authorization" := [authorization]]> ∅);
     http.Body := "" |}.

(** The same without an [Authorization] header. *)
Definition anonymous (path : string) : http.Request :=
  {| http.Method := "GET"; http.Path := path; http.RawQuery := "";
     http.Header := <["X-User-Id" := ["root"]]> ∅;
     http.Body := "" |}.

Definition next : Handler := Serve "next".

(** An environment in which the address of the blog service is not set. *)
Definition env_without_blog : gmap string string :=
  <["AUTH_SERVICE_URL" := "http://auth:8081"]>
    (<["USER_SERVICE_URL" := "http://user:8083"]>
       (<["ASP_SERVICE_URL" := "http://asp:8084"]> ∅)).

(** An auth service that answers every call with the success status and a
    body that is not JSON. *)
Definition Garbled (calls : list http.ClientRequest) (req : http.ClientRequest)
  : error + http.Response :=
  inr {| http.StatusCode := 200; http.RespBody := "<html>" |}.

Definition garbled : Platform :=
  {| URL := string; url_Parse := Parse; client_Do := Garbled;
     json_Decode := Decode; proxy_ServeHTTP := Serve |}.

Definition garbled_gateway : @handler.Gateway garbled :=
  {| handler.GConfig := config;
     handler.AuthProxy := @handler.NewSingleHostReverseProxy garbled ("http://auth:8081" : @URL garbled);
     handler.BlogProxy := @handler.NewSingleHostReverseProxy garbled ("http://blog:8082" : @URL garbled);
     handler.UserProxy := @handler.NewSingleHostReverseProxy garbled ("http://user:8083" : @URL garbled);
     handler.AspProxy := @handler.NewSingleHostReverseProxy garbled ("http://asp:8084" : @URL garbled) |}.

(** A gateway built by hand around an auth address that holds a line feed,
    which [Parse] refuses. *)
Definition broken_config : handler.Config :=
  {| handler.AuthServiceURL := "http://auth" +:+ http.LF;
     handler.BlogServiceURL := "http://blog:8082";
     handler.UserServiceURL := "http://user:8083";
     handler.AspServiceURL := "http://asp:8084" |}.

Definition broken_gateway : @handler.Gateway platform :=
  {| handler.GConfig := broken_config;
     handler.AuthProxy := target "http://auth:8081";
     handler.BlogProxy := target "http://blog:8082";
     handler.UserProxy := target "http://user:8083";
     handler.AspProxy := target "http://asp:8084" |}.

(** An environment in which the address of the user service is set to the
    empty string and the port is chosen. *)
Definition env_empty_user : gmap string string :=
  <["PORT" := "9090"]> (<["USER_SERVICE_URL" := ""]> env).


(** A preflight-like request: another method, a query, a body and one more
    header, on [path] with the given [Authorization] value. *)
Definition preflight (path authorization : string) : http.Request :=
  {| http.Method := "OPTIONS"; http.Path := path; http.RawQuery := "page=2";
     http.Header :=
       <["Origin" := ["http://localhost:4200"]]>
         (<["Authorization" := [authorization]]> ∅);
     http.Body := "{}" |}.

End sample.

(** ** Vocabulary of the specification *)
Module spec.
Section Vocabulary.
Context `{Platform}.
Import handler.

(** The request path falls under the bypass prefix. *)
Definition bypass (r : http.Request) : bool :=
  strings.HasPrefix (http.Path r) "/api/auth/".

(** An [Authorization] value made of exactly two space-separated tokens,
    the first literally [Bearer] and the second [token]. *)
Definition BearerFormat (value token : string) : Prop :=
  value = "Bearer " +:+ token /\ strings.free_of " " token = true.

(** The format test of the gate, as one boolean. *)
Definition malformed (authHeader : string) : bool :=
  let parts := strings.Split authHeader " " in
  negb (Nat.eqb (length parts) 2)
  || negb (String.eqb (nth 0 parts EmptyString) "Bearer").

(** The outbound call of the interface:
    [POST <auth-base>/api/auth/jwt] with [Authorization: Bearer <token>]. *)
Definition jwt_request (g : Gateway) (token : string) : http.ClientRequest :=
  {| http.cMethod := "POST";
     http.cURL := AuthServiceURL (GConfig g) +:+ "/api/auth/jwt";
     http.cHeader := <["Authorization" := ["Bearer " +:+ token]]> ∅ |}.

(** In world [w] the auth backend answers the validation of [token] with
    the response [resp]: the validation address parses and the call comes
    back without a transport error. *)
Definition AuthService_answers
    (g : Gateway) (token : string) (w : World) (resp : http.Response) : Prop :=
  (exists u, url_Parse (AuthServiceURL (GConfig g) +:+ "/api/auth/jwt") = inr u)
  /\ client_Do (Calls w) (jwt_request g token) = inr resp.

(** The world once the verifier has logged and placed its call. *)
Definition after_call (g : Gateway) (token : string) (w : World) : World :=
  {| Logs := Logs w ++ ["Authorizing... Forwarding requet"];
     Calls := Calls w ++ [jwt_request g token] |}.

(** What [validateJWT] makes of an answer of the auth backend: the part of
    its body that follows [g.Client.Do]. *)
Definition verdict (resp : http.Response) : string * string * string * option error :=
  let '(authResp, err) := json_Decode (http.RespBody resp) in
  if negb (http.StatusCode resp =? http.StatusOK) then
    if bool_decide (err = None) && negb (is_empty (Error authResp))
    then failed ("AuthService error: " +:+ Error authResp)
    else failed ("AuthService returned status: " +:+ Itoa (http.StatusCode resp))
  else
    match err with
    | Some err => failed ("failed to decode AuthService response: " +:+ err)
    | None =>
        if is_empty (UserID authResp) || is_empty (Role authResp)
        then failed "invalid AuthService response: missing userID or role"
        else (UserID authResp, Role authResp, Username authResp, None)
    end.

(** The [Authorization] value carries a token that the verifier accepts in
    world [w]. *)
Definition valid_bearer (g : Gateway) (w : World) (value : string) : Prop :=
  exists token userID role username w',
    BearerFormat value token
    /\ validateJWT g token w = ((userID, role, username, None), w').

(** A path is in scope of a router when one of its rules matches it. *)
Definition in_scope {A : Type} (rt : mux.Router A) (path : string) : Prop :=
  is_Some (mux.Match rt path).

(** Every key of the header map is in canonical form, as in the maps the
    HTTP server builds when it reads a request. *)
Definition canonical_keys (h : gmap string (list string)) : Prop :=
  forall key, is_Some (h !! key) -> textproto.CanonicalMIMEHeaderKey key = key.

(** The four required variables of the environment. *)
Definition required : list string :=
  ["AUTH_SERVICE_URL"; "BLOG_SERVICE_URL"; "USER_SERVICE_URL"; "ASP_SERVICE_URL"].

(** The request after the three [Header.Set] calls of the gate. *)
Definition with_identity (r : http.Request) (userID role username : string)
  : http.Request :=
  http.Request_SetHeader
    (http.Request_SetHeader (http.Request_SetHeader r "X-User-ID" userID)
       "X-User-Role" role)
    "X-Username" username.



(** The three bodies with which the gate itself answers. *)
Definition gate_messages : list string :=
  ["missing Authorization header"; "invalid Authorization format"; "invalid JWT"].

End Vocabulary.
End spec.

(** * Properties *)

#[local] Arguments String.append !_ _ : simpl nomatch.

(** ** The definitions on sample inputs *)
Example canon_user_id : textproto.CanonicalMIMEHeaderKey "X-User-ID" = "X-User-Id".
Proof. reflexivity. Qed.
Example canon_lower : textproto.CanonicalMIMEHeaderKey "x-user-role" = "X-User-Role".
Proof. reflexivity. Qed.
Example canon_space : textproto.CanonicalMIMEHeaderKey "x user" = "x user".
Proof. reflexivity. Qed.
Example split3 : strings.Split "Bearer a b" " " = ["Bearer"; "a"; "b"].
Proof. reflexivity. Qed.
Example split_trail : strings.Split "Bearer " " " = ["Bearer"; ""].
Proof. reflexivity. Qed.
Example trim1 : strings.TrimRight "/api/" "/" = "/api".
Proof. reflexivity. Qed.
Example Itoa_404 : Itoa 404 = "404".
Proof. reflexivity. Qed.
Example sample_new :
  @handler.NewGateway sample.platform sample.config = inr sample.gateway.
Proof. reflexivity. Qed.
Example sample_good :
  fst (@handler.validateJWT sample.platform sample.gateway "good" sample.world0)
  = ("u1", "admin", "alice", None).
Proof. vm_compute. reflexivity. Qed.
Example sample_gate :
  http.Written (fst (@handler.AuthMiddleware sample.platform sample.gateway sample.next
            (sample.request "/api/blog/posts/5" "Bearer good") sample.world0)) = "next u1".
Proof. vm_compute. reflexivity. Qed.
Example sample_gate_bypass :
  http.Written (fst (@handler.AuthMiddleware sample.platform sample.gateway sample.next
            (sample.request "/api/auth/login" "junk") sample.world0)) = "next root".
Proof. vm_compute. reflexivity. Qed.
Example sample_main :
  exists r, @main.main sample.platform None sample.env = main.ListenAndServe ":8080" r.
Proof. eexists. vm_compute. reflexivity. Qed.
Example sample_route :
  mux.PathPrefix <$> mux.Match (@main.router sample.platform sample.gateway sample.config) "/api/blog/posts/5" = Some "/api/blog".
Proof. vm_compute. reflexivity. Qed.
Example sample_gate_extra_segment :
  http.Code (fst (@handler.AuthMiddleware sample.platform sample.gateway sample.next
            (sample.request "/api/blog/posts/5" "Bearer a b") sample.world0)) = 401.
Proof. vm_compute. reflexivity. Qed.
Example sample_gate_empty_token :
  Calls (snd (@handler.AuthMiddleware sample.platform sample.gateway sample.next
            (sample.request "/api/blog/posts/5" "Bearer ") sample.world0))
  = [@spec.jwt_request sample.platform sample.gateway ""].
Proof. vm_compute. reflexivity. Qed.
Example sample_route_line_feed :
  mux.Match (@main.router sample.platform sample.gateway sample.config)
    ("/api/blog/a" +:+ http.LF +:+ "b") = None.
Proof. vm_compute. reflexivity. Qed.
Example sample_route_no_slash :
  mux.PathPrefix <$> mux.Match (@main.router sample.platform sample.gateway sample.config)
    "/api/blog" = Some "/api/".
Proof. vm_compute. reflexivity. Qed.
Example sample_route_outside :
  mux.Match (@main.router sample.platform sample.gateway sample.config) "/health" = None.
Proof. vm_compute. reflexivity. Qed.
Example Itoa_503 : Itoa 503 = "503".
Proof. reflexivity. Qed.
Example LF_code : http.LF = String (ascii_of_nat 10) EmptyString.
Proof. reflexivity. Qed.

(** ** Strings *)
Section StringFacts.

Lemma append_assoc (a b c : string) : (a +:+ b) +:+ c = a +:+ (b +:+ c).
Proof. induction a as [|x a IH]; simpl; [done | by rewrite IH]. Qed.

Lemma HasPrefix_app (pre rest : string) :
  strings.HasPrefix (pre +:+ rest) pre = true.
Proof.
  unfold strings.HasPrefix. induction pre as [|a pre IH]; simpl.
  - by destruct rest.
  - destruct (ascii_dec a a); [exact IH | done].
Qed.

Lemma HasPrefix_inv (s pre : string) :
  strings.HasPrefix s pre = true -> exists rest, s = pre +:+ rest.
Proof.
  unfold strings.HasPrefix. revert s.
  induction pre as [|a pre IH]; intros s Hs.
  - by exists s.
  - destruct s as [|b s]; simpl in Hs; [done |].
    destruct (ascii_dec a b) as [->|]; [| done].
    destruct (IH _ Hs) as [rest ->]. by exists rest.
Qed.

Lemma CutPrefix_app (pre rest : string) :
  strings.CutPrefix (pre +:+ rest) pre = Some rest.
Proof.
  induction pre as [|a pre IH]; simpl; [done |].
  by rewrite Ascii.eqb_refl.
Qed.

Lemma CutPrefix_inv (s pre rest : string) :
  strings.CutPrefix s pre = Some rest -> s = pre +:+ rest.
Proof.
  revert s. induction pre as [|a pre IH]; intros s Hs; simpl in Hs.
  - by inversion Hs.
  - destruct s as [|b s]; [done |].
    destruct (Ascii.eqb_spec a b) as [->|]; [| done].
    simpl. f_equal. by apply IH.
Qed.

Lemma free_of_app (c : ascii) (a b : string) :
  strings.free_of c (a +:+ b) = strings.free_of c a && strings.free_of c b.
Proof.
  induction a as [|x a IH]; simpl; [done |].
  rewrite IH. by destruct (Ascii.eqb x c).
Qed.

Lemma Split_nonempty (s : string) (sep : ascii) : strings.Split s sep <> [].
Proof.
  destruct s as [|c s]; simpl; [done |].
  destruct (Ascii.eqb c sep); [done |].
  by destruct (strings.Split s sep).
Qed.

(** A string without the separator is its own single part. *)
Lemma Split_free (s : string) (sep : ascii) :
  strings.free_of sep s = true -> strings.Split s sep = [s].
Proof.
  induction s as [|c s IH]; simpl; [done |].
  destruct (Ascii.eqb c sep); simpl; [done |].
  intros Hs. by rewrite (IH Hs).
Qed.

(** The first part ends at the first separator. *)
Lemma Split_app (a b : string) (sep : ascii) :
  strings.free_of sep a = true ->
  strings.Split (a +:+ String sep b) sep = a :: strings.Split b sep.
Proof.
  induction a as [|c a IH]; simpl.
  - by rewrite Ascii.eqb_refl.
  - destruct (Ascii.eqb c sep); simpl; [done |].
    intros Ha. by rewrite (IH Ha).
Qed.

(** No part holds the separator. *)
Lemma Split_parts_free (s : string) (sep : ascii) :
  Forall (fun p => strings.free_of sep p = true) (strings.Split s sep).
Proof.
  induction s as [|c s IH]; simpl.
  - by repeat constructor.
  - destruct (Ascii.eqb c sep) eqn:Hc.
    + by constructor.
    + destruct (strings.Split s sep) as [|p ps]; simpl.
      * repeat constructor. simpl. by rewrite Hc.
      * inversion IH; subst. constructor; [| done].
        simpl. by rewrite Hc.
Qed.

Lemma Split_one (s : string) (sep : ascii) (p : string) :
  strings.Split s sep = [p] -> s = p.
Proof.
  revert p. induction s as [|c s IH]; intros p; simpl.
  - by intros [= <-].
  - destruct (Ascii.eqb c sep).
    + intros [= _ Hs]. by destruct (Split_nonempty s sep).
    + destruct (strings.Split s sep) as [|q qs] eqn:Hq;
        [by destruct (Split_nonempty s sep) |].
      intros [= <- ->]. f_equal. by apply IH.
Qed.

(** Two parts put back together around the separator give the string. *)
Lemma Split_two (s : string) (sep : ascii) (p0 p1 : string) :
  strings.Split s sep = [p0; p1] -> s = p0 +:+ String sep p1.
Proof.
  revert p0. induction s as [|c s IH]; intros p0; simpl; [done |].
  destruct (Ascii.eqb_spec c sep) as [->|Hc].
  - intros [= <- Hs]. simpl. f_equal. by apply (Split_one _ sep).
  - destruct (strings.Split s sep) as [|q qs] eqn:Hq; [done |].
    intros [= <- ->]. simpl. f_equal. by apply IH.
Qed.

End StringFacts.

(** ** Headers *)
Section HeaderFacts.

Lemma Values_Set_same (h : gmap string (list string)) (key key' value : string) :
  textproto.CanonicalMIMEHeaderKey key' = textproto.CanonicalMIMEHeaderKey key ->
  http.Header_Values (http.Header_Set h key value) key' = [value].
Proof.
  intros Hk. unfold http.Header_Values, http.Header_Set.
  by rewrite Hk, lookup_insert_eq.
Qed.

Lemma Values_Set_other (h : gmap string (list string)) (key key' value : string) :
  textproto.CanonicalMIMEHeaderKey key' <> textproto.CanonicalMIMEHeaderKey key ->
  http.Header_Values (http.Header_Set h key value) key' = http.Header_Values h key'.
Proof.
  intros Hk. unfold http.Header_Values, http.Header_Set.
  by rewrite lookup_insert_ne.
Qed.

Lemma Get_Values (h : gmap string (list string)) (key : string) :
  http.Header_Get h key = hd EmptyString (http.Header_Values h key).
Proof.
  unfold http.Header_Get, http.Header_Values.
  by destruct (h !! _) as [[|v vs]|].
Qed.

Lemma canonical_keys_Set (h : gmap string (list string)) (key value : string) :
  textproto.CanonicalMIMEHeaderKey (textproto.CanonicalMIMEHeaderKey key)
    = textproto.CanonicalMIMEHeaderKey key ->
  spec.canonical_keys h -> spec.canonical_keys (http.Header_Set h key value).
Proof.
  intros Hk Hh k. unfold http.Header_Set.
  destruct (decide (textproto.CanonicalMIMEHeaderKey key = k)) as [<-|Hne].
  - done.
  - rewrite lookup_insert_ne by done. apply Hh.
Qed.

End HeaderFacts.

(** ** The identity verifier *)
Section VerifierFacts.
Context `{Platform}.
Import handler spec.

Lemma is_empty_true (s : string) : is_empty s = true <-> s = EmptyString.
Proof. unfold is_empty. by rewrite bool_decide_eq_true. Qed.

Lemma is_empty_false (s : string) : is_empty s = false <-> s <> EmptyString.
Proof. unfold is_empty. by rewrite bool_decide_eq_false. Qed.

(** The verifier sends exactly the request of the interface, once, and
    turns the answer into its verdict. *)
Lemma validateJWT_answered (g : Gateway) (token : string) (w : World)
    (resp : http.Response) :
  AuthService_answers g token w resp ->
  validateJWT g token w = (verdict resp, after_call g token w).
Proof.
  intros [[u Hu] Hdo]. unfold validateJWT, NewRequest, Client_Do, verdict.
  change (negb (textproto.all_valid (if is_empty "POST" then "GET" else "POST")))
    with false.
  cbv iota. rewrite Hu. cbv beta iota zeta.
  match goal with
  | |- context [client_Do _ ?req] => change req with (jwt_request g token)
  end.
  change (Calls (Logger_Printf w "Authorizing... Forwarding requet")) with (Calls w).
  rewrite Hdo.
  destruct (json_Decode (http.RespBody resp)) as [authResp err].
  destruct (negb (http.StatusCode resp =? http.StatusOK)).
  - by destruct (bool_decide (err = None) && negb (is_empty (Error authResp))).
  - destruct err as [err|]; [done |].
    by destruct (is_empty (UserID authResp) || is_empty (Role authResp)).
Qed.

(** The verifier never returns without having written to the log. *)
Lemma validateJWT_logs (g : Gateway) (token : string) (w : World) :
  exists more, Logs (snd (validateJWT g token w))
               = Logs w ++ "Authorizing... Forwarding requet" :: more.
Proof.
  exists []. unfold validateJWT, Client_Do.
  destruct (NewRequest _ _) as [err|req]; [done |].
  cbv beta iota zeta.
  destruct (client_Do _ _) as [err|resp]; [done |].
  destruct (json_Decode _) as [authResp err].
  destruct (negb _).
  - by destruct (_ && _).
  - destruct err; [done |]. by destruct (_ || _).
Qed.

(** Upstream unavailable. *)
Lemma validateJWT_unavailable (g : Gateway) (token : string) (w : World) (err : error) :
  (exists u, url_Parse (AuthServiceURL (GConfig g) +:+ "/api/auth/jwt") = inr u) ->
  client_Do (Calls w) (jwt_request g token) = inl err ->
  validateJWT g token w
  = (failed ("failed to contact AuthService: " +:+ err), after_call g token w).
Proof.
  intros [u Hu] Hdo. unfold validateJWT, NewRequest, Client_Do.
  change (negb (textproto.all_valid (if is_empty "POST" then "GET" else "POST")))
    with false.
  cbv iota. rewrite Hu. cbv beta iota zeta.
  match goal with
  | |- context [client_Do _ ?req] => change req with (jwt_request g token)
  end.
  change (Calls (Logger_Printf w "Authorizing... Forwarding requet")) with (Calls w).
  by rewrite Hdo.
Qed.

(** Malformed upstream response. *)
Lemma verdict_malformed (resp : http.Response) (authResp : AuthValidateResponse)
    (err : error) :
  http.StatusCode resp = http.StatusOK ->
  json_Decode (http.RespBody resp) = (authResp, Some err) ->
  verdict resp = failed ("failed to decode AuthService response: " +:+ err).
Proof.
  intros Hc Hd. unfold verdict. rewrite Hd, Hc. by rewrite Z.eqb_refl.
Qed.

(** Incomplete identity. *)
Lemma verdict_incomplete (resp : http.Response) (authResp : AuthValidateResponse) :
  http.StatusCode resp = http.StatusOK ->
  json_Decode (http.RespBody resp) = (authResp, None) ->
  UserID authResp = EmptyString \/ Role authResp = EmptyString ->
  verdict resp = failed "invalid AuthService response: missing userID or role".
Proof.
  intros Hc Hd Hid. unfold verdict. rewrite Hd, Hc, Z.eqb_refl. simpl.
  destruct Hid as [->| ->]; simpl; [done |]. by rewrite orb_true_r.
Qed.

(** A complete identity on a success status is returned as it is. *)
Lemma verdict_identity (resp : http.Response) (authResp : AuthValidateResponse) :
  http.StatusCode resp = http.StatusOK ->
  json_Decode (http.RespBody resp) = (authResp, None) ->
  UserID authResp <> EmptyString -> Role authResp <> EmptyString ->
  verdict resp = (UserID authResp, Role authResp, Username authResp, None).
Proof.
  intros Hc Hd Hu Hr. unfold verdict. rewrite Hd, Hc, Z.eqb_refl. simpl.
  apply is_empty_false in Hu, Hr. by rewrite Hu, Hr.
Qed.

(** A success of the verifier carries a subject and a role. *)
Lemma verdict_success_complete (resp : http.Response) (userID role username : string) :
  verdict resp = (userID, role, username, None) ->
  userID <> EmptyString /\ role <> EmptyString.
Proof.
  unfold verdict. destruct (json_Decode _) as [authResp err].
  destruct (negb _).
  - by destruct (_ && _).
  - destruct err; [done |].
    destruct (is_empty (UserID authResp)) eqn:Hu; [done |].
    destruct (is_empty (Role authResp)) eqn:Hr; [done |]. simpl.
    intros [= <- <- <-]. by rewrite <- !is_empty_false.
Qed.

End VerifierFacts.

(** ** The auth gate *)
Section GateFacts.
Context `{Platform}.
Import handler spec.

Lemma BearerFormat_parts (value token : string) :
  BearerFormat value token -> strings.Split value " " = ["Bearer"; token].
Proof.
  intros [-> Htok].
  change ("Bearer " +:+ token) with ("Bearer" +:+ String " " token).
  rewrite Split_app by done. by rewrite Split_free.
Qed.

Lemma malformed_false (value : string) :
  malformed value = false <-> exists token, BearerFormat value token.
Proof.
  unfold malformed. split.
  - intros Hm. apply orb_false_elim in Hm as [Hlen Hfst].
    apply negb_false_iff in Hlen, Hfst.
    pose proof (Split_parts_free value " ") as Hfree.
    destruct (strings.Split value " ") as [|p0 [|p1 [|p2 ps]]] eqn:Hs; try done.
    simpl in Hfst. apply String.eqb_eq in Hfst as ->.
    exists p1. split.
    + by apply Split_two in Hs.
    + by inversion Hfree as [|? ? _ Hrest]; inversion Hrest.
  - intros [token Hb]. by rewrite (BearerFormat_parts _ _ Hb).
Qed.

Lemma malformed_true (value : string) :
  (~ exists token, BearerFormat value token) -> malformed value = true.
Proof.
  intros Hn. destruct (malformed value) eqn:Hm; [done |].
  by apply malformed_false in Hm.
Qed.

Lemma BearerFormat_nonempty (value token : string) :
  BearerFormat value token -> is_empty value = false.
Proof. intros [-> _]. done. Qed.

Lemma gate_bypass (g : Gateway) (next : Handler) (r : http.Request) (w : World) :
  bypass r = true -> AuthMiddleware g next r w = next r w.
Proof. unfold bypass, AuthMiddleware. by intros ->. Qed.

(** Outside the bypass prefix a value that is not in bearer format is
    answered by the gate itself, the world untouched. *)
Lemma gate_malformed (g : Gateway) (r : http.Request) (w : World) :
  bypass r = false ->
  (~ exists token, BearerFormat (http.Header_Get (http.Header r) "Authorization") token) ->
  exists msg, forall next,
    AuthMiddleware g next r w = (http.Error msg http.StatusUnauthorized, w).
Proof.
  unfold bypass, AuthMiddleware. intros -> Hn.
  destruct (is_empty _) eqn:He.
  - by eexists.
  - apply malformed_true in Hn. unfold malformed in Hn. cbv zeta.
    rewrite Hn. by eexists.
Qed.

(** Outside the bypass prefix a value in bearer format sends its token to
    the verifier, whose answer decides. *)
Lemma gate_verifies (g : Gateway) (next : Handler) (r : http.Request) (w : World)
    (token : string) :
  bypass r = false ->
  BearerFormat (http.Header_Get (http.Header r) "Authorization") token ->
  AuthMiddleware g next r w =
    let '(userID, role, username, err, w') := validateJWT g token w in
    match err with
    | Some err =>
        (http.Error "invalid JWT" http.StatusUnauthorized,
         Logger_Printf w' ("JWT validation failed: " +:+ err))
    | None =>
        next (http.Request_SetHeader
                (http.Request_SetHeader
                   (http.Request_SetHeader r "X-User-ID" userID)
                   "X-User-Role" role)
                "X-Username" username) w'
    end.
Proof.
  unfold bypass, AuthMiddleware. intros -> Hb.
  rewrite (BearerFormat_nonempty _ _ Hb). cbv zeta.
  by rewrite (BearerFormat_parts _ _ Hb).
Qed.

(** The three identity fields after the three [Set] calls, read through
    any spelling of their names; the other fields are as they were. *)
Lemma identity_headers (h : gmap string (list string)) (userID role username : string) :
  let h' := http.Header_Set
              (http.Header_Set (http.Header_Set h "X-User-ID" userID)
                 "X-User-Role" role)
              "X-Username" username in
  (forall key, textproto.CanonicalMIMEHeaderKey key = "X-User-Id" ->
               http.Header_Values h' key = [userID])
  /\ (forall key, textproto.CanonicalMIMEHeaderKey key = "X-User-Role" ->
                  http.Header_Values h' key = [role])
  /\ (forall key, textproto.CanonicalMIMEHeaderKey key = "X-Username" ->
                  http.Header_Values h' key = [username])
  /\ (forall key, key <> "X-User-Id" -> key <> "X-User-Role" -> key <> "X-Username" ->
                  h' !! key = h !! key).
Proof.
  intros h'. subst h'. unfold http.Header_Values, http.Header_Set.
  change (textproto.CanonicalMIMEHeaderKey "X-User-ID") with "X-User-Id".
  change (textproto.CanonicalMIMEHeaderKey "X-User-Role") with "X-User-Role".
  change (textproto.CanonicalMIMEHeaderKey "X-Username") with "X-Username".
  repeat split.
  - intros key ->. do 2 (rewrite lookup_insert_ne by done).
    by rewrite lookup_insert_eq.
  - intros key ->. rewrite lookup_insert_ne by done.
    by rewrite lookup_insert_eq.
  - intros key ->. by rewrite lookup_insert_eq.
  - intros key H1 H2 H3. by do 3 (rewrite lookup_insert_ne by done).
Qed.

(** A verifier error ends the request at the gate. *)
Lemma gate_verifier_error (g : Gateway) (r : http.Request) (w w' : World)
    (token a b c : string) (err : error) :
  bypass r = false ->
  BearerFormat (http.Header_Get (http.Header r) "Authorization") token ->
  validateJWT g token w = ((a, b, c, Some err), w') ->
  forall next,
    AuthMiddleware g next r w
    = (http.Error "invalid JWT" http.StatusUnauthorized,
       Logger_Printf w' ("JWT validation failed: " +:+ err)).
Proof.
  intros Hb Hf Hv next. by rewrite (gate_verifies g next r w token Hb Hf), Hv.
Qed.

(** Outside the bypass prefix nothing but a bearer token that verifies
    gets a request past the gate. *)
Lemma gate_requires_valid (g : Gateway) (r : http.Request) (w : World) :
  bypass r = false ->
  ~ valid_bearer g w (http.Header_Get (http.Header r) "Authorization") ->
  exists msg w', forall next,
    AuthMiddleware g next r w = (http.Error msg http.StatusUnauthorized, w').
Proof.
  intros Hb Hn.
  destruct (malformed (http.Header_Get (http.Header r) "Authorization")) eqn:Hm.
  - destruct (gate_malformed g r w Hb) as [msg Hmsg]; [| by exists msg, w].
    intros Hex. apply malformed_false in Hex. congruence.
  - apply malformed_false in Hm as [token Hf].
    destruct (validateJWT g token w) as [[[[a b] c] [err|]] w'] eqn:Hv.
    + eexists _, _. by apply (gate_verifier_error g r w w' token a b c err).
    + destruct Hn. by exists token, a, b, c, w'.
Qed.

End GateFacts.

(** ** The route table *)
Section RouterFacts.
Context `{Platform}.
Import handler spec main.

(** A route only matches a path that continues its prefix with a slash and
    a tail free of line feeds. *)
Lemma Route_Match_inv {A : Type} (rt : mux.Route A) (path : string) :
  mux.Route_Match rt path = true ->
  exists rest,
    path = (strings.TrimRight (mux.PathPrefix rt) "/" +:+ "/") +:+ rest
    /\ strings.free_of "010" rest = true.
Proof.
  unfold mux.Route_Match, mux.path_var. intros Hm.
  apply andb_true_iff in Hm as [_ Hm].
  destruct (strings.CutPrefix _ _) as [rest|] eqn:Hc; [| done].
  exists rest. split; [by apply CutPrefix_inv | done].
Qed.

Lemma Route_Match_under {A : Type} (rt : mux.Route A) (path : string) :
  mux.Route_Match rt path = true ->
  strings.HasPrefix path (strings.TrimRight (mux.PathPrefix rt) "/" +:+ "/") = true.
Proof.
  intros Hm. destruct (Route_Match_inv _ _ Hm) as (rest & -> & _).
  apply HasPrefix_app.
Qed.

(** The catch-all matches every path under [/api/] whose tail has no line
    feed. *)
Lemma aspRouter_matches (g : Gateway) (config : Config) (rest : string) :
  mux.Route_Match (aspRouter g config) ("/api/" +:+ rest) = strings.free_of "010" rest.
Proof.
  unfold mux.Route_Match, mux.path_var, aspRouter. cbn.
  change (strings.CutPrefix rest "") with (Some rest).
  by destruct rest.
Qed.

(** What is in scope of the gateway's router: the paths under [/api/]
    without a line feed after the prefix. *)
Lemma in_scope_iff (g : Gateway) (config : Config) (path : string) :
  in_scope (router g config) path <->
  exists rest, path = "/api/" +:+ rest /\ strings.free_of "010" rest = true.
Proof.
  unfold in_scope, mux.Match, router. simpl mux.routes. split.
  - intros Hs.
    assert (exists rt, In rt [authRouter g config; blogRouter g config;
                              userRouter g config; aspRouter g config]
                       /\ mux.Route_Match rt path = true) as (rt & Hin & Hm).
    { cbn [mux.first_match] in Hs.
      repeat match type of Hs with
             | is_Some (if ?b then _ else _) =>
                 let E := fresh "E" in
                 destruct b eqn:E; [eexists; split; [| exact E]; simpl; tauto |]
             end.
      by destruct Hs. }
    apply Route_Match_inv in Hm as (rest & -> & Hrest).
    simpl in Hin. destruct Hin as [<-|[<-|[<-|[<-|[]]]]]; cbn.
    + exists ("auth/" +:+ rest). by rewrite free_of_app, Hrest.
    + exists ("blog/" +:+ rest). by rewrite free_of_app, Hrest.
    + exists ("user/" +:+ rest). by rewrite free_of_app, Hrest.
    + by exists rest.
  - intros (rest & -> & Hrest). cbn [mux.first_match].
    rewrite aspRouter_matches, Hrest.
    by repeat match goal with |- is_Some (if ?b then _ else _) => destruct b end.
Qed.

End RouterFacts.

(** ** Startup *)
Section StartupFacts.
Context `{Platform}.
Import handler spec main.

Lemma Getenv_unset (env : gmap string string) (key : string) :
  env !! key = None -> is_empty (Getenv env key) = true.
Proof. intros Hk. unfold Getenv. by rewrite Hk. Qed.

(** [NewGateway] keeps the configuration it was given. *)
Lemma NewGateway_config (config : Config) (g : Gateway) :
  NewGateway config = inr g -> GConfig g = config.
Proof.
  unfold NewGateway. repeat (destruct (url_Parse _); [done |]).
  by intros [= <-].
Qed.

(** [NewGateway] succeeds only when the four addresses parse. *)
Lemma NewGateway_parsed (config : Config) (g : Gateway) :
  NewGateway config = inr g ->
  url_Parse (AuthServiceURL config) = inr (Target (AuthProxy g))
  /\ url_Parse (BlogServiceURL config) = inr (Target (BlogProxy g))
  /\ url_Parse (UserServiceURL config) = inr (Target (UserProxy g))
  /\ url_Parse (AspServiceURL config) = inr (Target (AspProxy g)).
Proof.
  unfold NewGateway. repeat (destruct (url_Parse _); [done |]).
  by intros [= <-].
Qed.

(** A start that reaches the server has read four set, non-empty and
    well-formed addresses. *)
Lemma configure_serving (env : gmap string string) (addr : string)
    (rt : mux.Router Handler) :
  configure env = ListenAndServe addr rt ->
  forall key, In key required ->
    (exists value, env !! key = Some value /\ value <> EmptyString)
    /\ exists u, url_Parse (Getenv env key) = inr u.
Proof.
  unfold configure. cbv zeta. simpl AuthServiceURL. simpl BlogServiceURL.
  simpl UserServiceURL. simpl AspServiceURL.
  destruct (_ || _) eqn:He; [done |].
  destruct (NewGateway _) as [err|g] eqn:Hg; [done |]. intros _.
  apply NewGateway_parsed in Hg as (Ha & Hb & Hu & Hp). simpl in Ha, Hb, Hu, Hp.
  repeat (apply orb_false_elim in He as [He ?]).
  assert (forall key, is_empty (Getenv env key) = false ->
            exists value, env !! key = Some value /\ value <> EmptyString) as Hset.
  { intros key Hk. unfold Getenv in Hk. destruct (env !! key) as [v|]; [| done].
    exists v. split; [done |]. by apply is_empty_false. }
  intros key [<-|[<-|[<-|[<-|[]]]]]; (split; [by apply Hset | by eexists]).
Qed.

End StartupFacts.

(** * The claims *)
Section AuthGate.
Context `{Platform}.
Import handler spec main.

(** C1.  A request whose path falls under the bypass prefix [/api/auth/]
    is handed to the next handler as it is, in the world as it is: no token
    is looked for, the verifier is not invoked, whatever the
    [Authorization] header holds. *)
Theorem bypass_skips_verifier (g : Gateway) (next : Handler)
    (r : http.Request) (w : World) :
  bypass r = true ->
  AuthMiddleware g next r w = next r w.
Proof. apply gate_bypass. Qed.

(** C2.  Outside the bypass prefix, an [Authorization] value that is not
    [Bearer], one space and one token without a space (a missing header
    reads as the empty value; the token is whatever follows the space, be it
    empty) is answered with 401 by the gate itself: the next handler is not
    run, and the world, with its list of outbound calls, is unchanged. *)
Theorem malformed_authorization_unauthorized (g : Gateway)
    (r : http.Request) (w : World) :
  bypass r = false ->
  (~ exists token, BearerFormat (http.Header_Get (http.Header r) "Authorization") token) ->
  exists msg, forall next,
    AuthMiddleware g next r w = (http.Error msg http.StatusUnauthorized, w)
    /\ http.Code (fst (AuthMiddleware g next r w)) = 401
    /\ Calls (snd (AuthMiddleware g next r w)) = Calls w.
Proof.
  intros Hb Hn. destruct (gate_malformed g r w Hb Hn) as [msg Hmsg].
  exists msg. intros next. by rewrite Hmsg.
Qed.

(** C3.  Outside the bypass prefix, when the token of the request verifies
    with identity [userID], [role], [username], the next handler receives
    the request with each of the three identity fields holding exactly the
    verified value, under any spelling of the field's name, whatever the
    caller had put there; method, path, query, body and every other header
    entry are the caller's.  A header map with canonical keys, as the server
    builds it, keeps canonical keys: no entry under another spelling of the
    three names stands next to the verified ones. *)
Theorem verified_identity_overwrites (g : Gateway) (r : http.Request) (w w' : World)
    (token userID role username : string) :
  bypass r = false ->
  BearerFormat (http.Header_Get (http.Header r) "Authorization") token ->
  validateJWT g token w = ((userID, role, username, None), w') ->
  exists r',
    (forall next, AuthMiddleware g next r w = next r' w')
    /\ (http.Method r' = http.Method r /\ http.Path r' = http.Path r
        /\ http.RawQuery r' = http.RawQuery r /\ http.Body r' = http.Body r)
    /\ (forall key, textproto.CanonicalMIMEHeaderKey key
                    = textproto.CanonicalMIMEHeaderKey "X-User-ID" ->
                    http.Header_Values (http.Header r') key = [userID])
    /\ (forall key, textproto.CanonicalMIMEHeaderKey key
                    = textproto.CanonicalMIMEHeaderKey "X-User-Role" ->
                    http.Header_Values (http.Header r') key = [role])
    /\ (forall key, textproto.CanonicalMIMEHeaderKey key
                    = textproto.CanonicalMIMEHeaderKey "X-Username" ->
                    http.Header_Values (http.Header r') key = [username])
    /\ (forall key, key <> "X-User-Id" -> key <> "X-User-Role" -> key <> "X-Username" ->
                    http.Header r' !! key = http.Header r !! key)
    /\ (canonical_keys (http.Header r) -> canonical_keys (http.Header r')).
Proof.
  intros Hb Hf Hv.
  eexists. split.
  { intros next. rewrite (gate_verifies g next r w token Hb Hf), Hv. reflexivity. }
  cbn [http.Request_SetHeader http.Method http.Path http.RawQuery http.Body http.Header].
  destruct (identity_headers (http.Header r) userID role username)
    as (Hu & Hr & Hn & Hframe).
  split; [done |]. split; [exact Hu |]. split; [exact Hr |]. split; [exact Hn |].
  split; [exact Hframe |].
  intros Hcanon. by repeat apply canonical_keys_Set.
Qed.

End AuthGate.

Section IdentityVerifier.
Context `{Platform}.
Import handler spec main.

(** C4.  When the auth backend answers with the success status and a
    payload that parses but has an empty subject identifier or an empty
    role, the verifier returns the error "missing userID or role" and no
    identity, and the gate answers a request carrying that token with 401
    without running the next handler. *)
Theorem incomplete_identity_is_failure (g : Gateway) (token : string) (w : World)
    (resp : http.Response) (authResp : AuthValidateResponse) :
  AuthService_answers g token w resp ->
  http.StatusCode resp = http.StatusOK ->
  json_Decode (http.RespBody resp) = (authResp, None) ->
  UserID authResp = EmptyString \/ Role authResp = EmptyString ->
  validateJWT g token w
    = ((EmptyString, EmptyString, EmptyString,
        Some "invalid AuthService response: missing userID or role"),
       after_call g token w)
  /\ forall r,
       bypass r = false ->
       BearerFormat (http.Header_Get (http.Header r) "Authorization") token ->
       exists w', forall next,
         AuthMiddleware g next r w
         = (http.Error "invalid JWT" http.StatusUnauthorized, w').
Proof.
  intros Ha Hc Hd Hid.
  assert (validateJWT g token w
          = (failed "invalid AuthService response: missing userID or role",
             after_call g token w)) as Hv.
  { rewrite (validateJWT_answered g token w resp Ha).
    by rewrite (verdict_incomplete resp authResp Hc Hd Hid). }
  split; [exact Hv |].
  intros r Hb Hf. eexists. by apply (gate_verifier_error g r w _ token _ _ _ _ Hb Hf Hv).
Qed.

(** C7.  When the auth backend answers with a status other than 200, the
    verifier decodes the body: if it decodes and its error message is not
    empty, the returned error carries that message; if it does not decode
    or the message is empty, the returned error carries the status code in
    decimal. *)
Theorem non_success_status_error (g : Gateway) (token : string) (w : World)
    (resp : http.Response) (authResp : AuthValidateResponse) (derr : option error) :
  AuthService_answers g token w resp ->
  http.StatusCode resp <> http.StatusOK ->
  json_Decode (http.RespBody resp) = (authResp, derr) ->
  (derr = None -> Error authResp <> EmptyString ->
   validateJWT g token w
   = ((EmptyString, EmptyString, EmptyString,
       Some ("AuthService error: " +:+ Error authResp)),
      after_call g token w))
  /\ (derr <> None \/ Error authResp = EmptyString ->
      validateJWT g token w
      = ((EmptyString, EmptyString, EmptyString,
          Some ("AuthService returned status: " +:+ Itoa (http.StatusCode resp))),
         after_call g token w)).
Proof.
  intros Ha Hc Hd. rewrite (validateJWT_answered g token w resp Ha).
  unfold verdict. rewrite Hd.
  apply Z.eqb_neq in Hc. rewrite Hc. cbn [negb]. split.
  - intros -> He. apply is_empty_false in He. by rewrite He.
  - intros [Hn | He].
    + by destruct derr.
    + rewrite He. by rewrite andb_false_r.
Qed.

End IdentityVerifier.

Section Unauthorized.
Context `{Platform}.
Import handler spec main.

(** C6.  Whatever error the verifier returns for the token of a gated
    request, the gate answers 401 with the fixed body "invalid JWT", does
    not run the next handler, and appends one line holding the error's
    message to the log the verifier left. *)
Theorem verifier_error_is_unauthorized (g : Gateway) (r : http.Request) (w w' : World)
    (token a b c : string) (err : error) :
  bypass r = false ->
  BearerFormat (http.Header_Get (http.Header r) "Authorization") token ->
  validateJWT g token w = ((a, b, c, Some err), w') ->
  forall next,
    let out := AuthMiddleware g next r w in
    fst out = http.Error "invalid JWT" http.StatusUnauthorized
    /\ http.Code (fst out) = 401
    /\ http.Written (fst out) = "invalid JWT" +:+ http.LF
    /\ Logs (snd out) = Logs w' ++ ["JWT validation failed: " +:+ err]
    /\ Calls (snd out) = Calls w'.
Proof.
  intros Hb Hf Hv next out. subst out.
  by rewrite (gate_verifier_error g r w w' token a b c err Hb Hf Hv next).
Qed.

(** C9.  A request on the path [/api/auth], without the final slash, is not
    under the bypass prefix; the router gives it to the catch-all route,
    behind the gate; and unless its [Authorization] header carries a
    bearer token that verifies, the gate answers it with 401. *)
Theorem auth_without_slash_is_gated (g : Gateway) (config : Config)
    (r : http.Request) (w : World) :
  http.Path r = "/api/auth" ->
  bypass r = false
  /\ mux.Match (router g config) (http.Path r) = Some (aspRouter g config)
  /\ mux.MatchHandler (router g config) (http.Path r)
     = Some (AuthMiddleware g (ProxyHandler (AspProxy g) (AspServiceURL config)))
  /\ (~ valid_bearer g w (http.Header_Get (http.Header r) "Authorization") ->
      exists msg w', forall next,
        AuthMiddleware g next r w = (http.Error msg http.StatusUnauthorized, w')).
Proof.
  intros Hp.
  assert (bypass r = false) as Hb by (unfold bypass; by rewrite Hp).
  split; [exact Hb |]. rewrite Hp.
  split; [reflexivity |]. split; [reflexivity |].
  by apply gate_requires_valid.
Qed.

(** C10.  For a request under the bypass prefix the gate hands the next
    handler the request itself, so every header is as the caller sent it;
    and the handler the router selects for the path gives that very
    request, identity headers included, to the proxy of the auth
    backend. *)
Theorem bypass_keeps_headers (g : Gateway) (config : Config)
    (r : http.Request) (w : World) :
  bypass r = true ->
  (forall next, exists r',
      AuthMiddleware g next r w = next r' w
      /\ http.Header r' = http.Header r
      /\ forall key, http.Header_Values (http.Header r') key
                     = http.Header_Values (http.Header r) key)
  /\ (forall h, mux.MatchHandler (router g config) (http.Path r) = Some h ->
        h r w = proxy_ServeHTTP (Target (AuthProxy g)) r
                  (Logger_Printf w
                     ("Forwarding " +:+ http.Method r +:+ " " +:+ http.Path r
                        +:+ " to " +:+ AuthServiceURL config))).
Proof.
  intros Hb. split.
  - intros next. exists r. by rewrite (gate_bypass g next r w Hb).
  - intros h Hh.
    pose proof Hb as Hrest. unfold bypass in Hrest.
    apply HasPrefix_inv in Hrest as [rest Hrest].
    unfold mux.MatchHandler, mux.Match, router in Hh. rewrite Hrest in Hh.
    cbn in Hh.
    destruct (strings.free_of "010" rest); [| done].
    injection Hh as <-. by rewrite (gate_bypass g _ r w Hb).
Qed.

End Unauthorized.

Section Routing.
Context `{Platform}.
Import handler spec main.

Ltac under_prefix Hp Hs :=
  apply HasPrefix_inv in Hp as [rest ->];
  unfold in_scope in Hs; unfold mux.Match, router in *;
  cbn in Hs; cbn;
  destruct (strings.free_of "010" rest); [reflexivity | by destruct Hs].

(** C5.  For every path in scope of the router (some rule matches it),
    the rules are tried in the order auth, blog, user, catch-all and the
    first match is taken: a path under [/api/auth/] selects the auth
    route, one under [/api/blog/] the blog route, one under [/api/user/]
    the user route, and any other path under [/api/] the catch-all, which
    is the last rule of the table. *)
Theorem router_prefers_specific_prefix (g : Gateway) (config : Config) (path : string) :
  in_scope (router g config) path ->
  (strings.HasPrefix path "/api/auth/" = true ->
   mux.Match (router g config) path = Some (authRouter g config))
  /\ (strings.HasPrefix path "/api/blog/" = true ->
      mux.Match (router g config) path = Some (blogRouter g config))
  /\ (strings.HasPrefix path "/api/user/" = true ->
      mux.Match (router g config) path = Some (userRouter g config))
  /\ (strings.HasPrefix path "/api/" = true ->
      strings.HasPrefix path "/api/auth/" = false ->
      strings.HasPrefix path "/api/blog/" = false ->
      strings.HasPrefix path "/api/user/" = false ->
      mux.Match (router g config) path = Some (aspRouter g config))
  /\ mux.routes (router g config)
     = [authRouter g config; blogRouter g config; userRouter g config]
         ++ [aspRouter g config].
Proof.
  intros Hs. repeat split.
  - intros Hp. under_prefix Hp Hs.
  - intros Hp. under_prefix Hp Hs.
  - intros Hp. under_prefix Hp Hs.
  - intros _ Ha Hb Hu.
    unfold in_scope in Hs. unfold mux.Match, router in *.
    cbn [mux.routes mux.first_match] in *.
    destruct (mux.Route_Match (authRouter g config) path) eqn:Ea.
    { apply Route_Match_under in Ea. cbn in Ea. congruence. }
    destruct (mux.Route_Match (blogRouter g config) path) eqn:Eb.
    { apply Route_Match_under in Eb. cbn in Eb. congruence. }
    destruct (mux.Route_Match (userRouter g config) path) eqn:Eu.
    { apply Route_Match_under in Eu. cbn in Eu. congruence. }
    destruct (mux.Route_Match (aspRouter g config) path); [done | by destruct Hs].
Qed.

End Routing.

Section Startup.
Context `{Platform}.
Import handler spec main.

(** C8.  If one of the four required addresses is not set in the
    environment, or is refused by [url.Parse], [main] ends in [log.Fatal]
    and no server is started; so does the second [main], which only warns
    about the [.env] file. *)
Theorem startup_refuses_bad_address (dotenv : option error)
    (env : gmap string string) (key : string) :
  In key required ->
  (env !! key = None \/ exists err, url_Parse (Getenv env key) = inl err) ->
  (exists msg, main dotenv env = Fatal msg)
  /\ (exists msg, main_cors dotenv env = Fatal msg).
Proof.
  intros Hkey Hbad.
  assert (exists msg, configure env = Fatal msg) as Hc.
  { destruct (configure env) as [msg|addr rt] eqn:Hcfg; [by exists msg |].
    destruct (configure_serving env addr rt Hcfg key Hkey) as [(v & Hv & _) [u Hu]].
    destruct Hbad as [Hnone | [err Herr]]; congruence. }
  split; [| exact Hc].
  unfold main. destruct dotenv as [e|]; [by eexists | exact Hc].
Qed.

End Startup.

(** * Further properties of the code *)

(** ** The identity verifier *)
Section VerifierMore.
Context `{Platform}.
Import handler spec main.

Lemma validateJWT_shape (g : Gateway) (token : string) (w : World) :
  match fst (validateJWT g token w) with
  | (userID, role, username, None) =>
      userID <> EmptyString /\ role <> EmptyString
  | (userID, role, username, Some _) =>
      userID = EmptyString /\ role = EmptyString /\ username = EmptyString
  end.
Proof.
  unfold validateJWT, Client_Do.
  destruct (NewRequest _ _) as [err|req]; [done |].
  cbv beta iota zeta.
  destruct (client_Do _ _) as [err|resp]; [done |].
  destruct (json_Decode _) as [authResp err].
  destruct (negb _).
  - by destruct (_ && _).
  - destruct err; [done |].
    destruct (is_empty (UserID authResp)) eqn:Hu; [done |].
    destruct (is_empty (Role authResp)) eqn:Hr; [done |]. simpl.
    by rewrite <- !is_empty_false.
Qed.

Lemma validateJWT_world (g : Gateway) (token : string) (w : World) :
  Logs (snd (validateJWT g token w)) = Logs w ++ ["Authorizing... Forwarding requet"]
  /\ Calls (snd (validateJWT g token w))
     = match url_Parse (AuthServiceURL (GConfig g) +:+ "/api/auth/jwt") with
       | inl _ => Calls w
       | inr _ => Calls w ++ [jwt_request g token]
       end.
Proof.
  unfold validateJWT, NewRequest, Client_Do.
  change (negb (textproto.all_valid (if is_empty "POST" then "GET" else "POST")))
    with false.
  cbv iota.
  destruct (url_Parse _) as [err|u]; [done |].
  cbv beta iota zeta.
  match goal with
  | |- context [client_Do _ ?req] => change req with (jwt_request g token)
  end.
  destruct (client_Do _ _) as [err|resp]; [done |].
  destruct (json_Decode _) as [authResp err].
  destruct (negb _).
  - by destruct (_ && _).
  - destruct err; [done |]. by destruct (_ || _).
Qed.

(** X1.  The verifier never returns a partial identity: without an error
    the subject and the role are both non-empty, and with an error the three
    strings are empty. *)
Theorem verifier_identity_or_error (g : Gateway) (token : string) (w : World) :
  match fst (validateJWT g token w) with
  | (userID, role, username, None) =>
      userID <> EmptyString /\ role <> EmptyString
  | (userID, role, username, Some _) =>
      userID = EmptyString /\ role = EmptyString /\ username = EmptyString
  end.
Proof. apply validateJWT_shape. Qed.

(** X2.  One validation writes one line to the log and places at most one
    call: none when the validation address does not parse, otherwise exactly
    the request [POST <auth-base>/api/auth/jwt] carrying the token as bearer
    credential, whatever the answer is. *)
Theorem verifier_one_call (g : Gateway) (token : string) (w : World) :
  Logs (snd (validateJWT g token w)) = Logs w ++ ["Authorizing... Forwarding requet"]
  /\ Calls (snd (validateJWT g token w))
     = match url_Parse (AuthServiceURL (GConfig g) +:+ "/api/auth/jwt") with
       | inl _ => Calls w
       | inr _ => Calls w ++ [jwt_request g token]
       end.
Proof. apply validateJWT_world. Qed.

(** X3.  When the validation address does not parse, the verifier fails
    with "failed to create validation request" and the cause, and no call
    leaves the gateway. *)
Theorem verifier_bad_address (g : Gateway) (token : string) (w : World) (err : error) :
  url_Parse (AuthServiceURL (GConfig g) +:+ "/api/auth/jwt") = inl err ->
  validateJWT g token w
  = ((EmptyString, EmptyString, EmptyString,
      Some ("failed to create validation request: " +:+ err)),
     Logger_Printf w "Authorizing... Forwarding requet")
  /\ Calls (snd (validateJWT g token w)) = Calls w.
Proof.
  intros Hu. unfold validateJWT, NewRequest.
  change (negb (textproto.all_valid (if is_empty "POST" then "GET" else "POST")))
    with false.
  cbv iota. by rewrite Hu.
Qed.

(** X4.  When the call to the auth backend ends in a transport error, the
    verifier fails with "failed to contact AuthService" and that error. *)
Theorem verifier_unreachable (g : Gateway) (token : string) (w : World) (err : error) :
  (exists u, url_Parse (AuthServiceURL (GConfig g) +:+ "/api/auth/jwt") = inr u) ->
  client_Do (Calls w) (jwt_request g token) = inl err ->
  validateJWT g token w
  = ((EmptyString, EmptyString, EmptyString,
      Some ("failed to contact AuthService: " +:+ err)),
     after_call g token w).
Proof. apply validateJWT_unavailable. Qed.

(** X5.  When the auth backend answers with the success status and a body
    that does not decode, the verifier fails with "failed to decode
    AuthService response" and the decoder's error, whatever the decoder left
    in the struct. *)
Theorem verifier_undecodable (g : Gateway) (token : string) (w : World)
    (resp : http.Response) (authResp : AuthValidateResponse) (err : error) :
  AuthService_answers g token w resp ->
  http.StatusCode resp = http.StatusOK ->
  json_Decode (http.RespBody resp) = (authResp, Some err) ->
  validateJWT g token w
  = ((EmptyString, EmptyString, EmptyString,
      Some ("failed to decode AuthService response: " +:+ err)),
     after_call g token w).
Proof.
  intros Ha Hc Hd. rewrite (validateJWT_answered g token w resp Ha).
  by rewrite (verdict_malformed resp authResp err Hc Hd).
Qed.

(** X6.  When the auth backend answers with the success status and a body
    that decodes to a non-empty subject and a non-empty role, the verifier
    returns subject, role and display name as decoded, the display name
    possibly empty, and no error. *)
Theorem verifier_accepts (g : Gateway) (token : string) (w : World)
    (resp : http.Response) (authResp : AuthValidateResponse) :
  AuthService_answers g token w resp ->
  http.StatusCode resp = http.StatusOK ->
  json_Decode (http.RespBody resp) = (authResp, None) ->
  UserID authResp <> EmptyString -> Role authResp <> EmptyString ->
  validateJWT g token w
  = ((UserID authResp, Role authResp, Username authResp, None), after_call g token w).
Proof.
  intros Ha Hc Hd Hu Hr. rewrite (validateJWT_answered g token w resp Ha).
  by rewrite (verdict_identity resp authResp Hc Hd Hu Hr).
Qed.

End VerifierMore.

(** ** The auth gate *)
Section GateMore.
Context `{Platform}.
Import handler spec main.

(** X7.  Outside the bypass prefix the gate tells a missing header from a
    malformed one: an absent or empty [Authorization] value is answered with
    the body "missing Authorization header", a non-empty value that is not a
    bearer credential with "invalid Authorization format"; both with 401 and
    the world untouched. *)
Theorem gate_rejection_bodies (g : Gateway) (r : http.Request) (w : World) :
  bypass r = false ->
  (http.Header_Get (http.Header r) "Authorization" = EmptyString ->
   forall next,
     AuthMiddleware g next r w
     = (http.Error "missing Authorization header" http.StatusUnauthorized, w))
  /\ (http.Header_Get (http.Header r) "Authorization" <> EmptyString ->
      (~ exists token,
           BearerFormat (http.Header_Get (http.Header r) "Authorization") token) ->
      forall next,
        AuthMiddleware g next r w
        = (http.Error "invalid Authorization format" http.StatusUnauthorized, w)).
Proof.
  unfold bypass, AuthMiddleware. intros ->. split.
  - by intros ->.
  - intros Hne Hn next. apply is_empty_false in Hne. rewrite Hne.
    apply malformed_true in Hn. unfold malformed in Hn. cbv zeta. by rewrite Hn.
Qed.

(** X8.  Outside the bypass prefix a request leaves the gate in one of two
    ways only: answered with 401 and one of the gate's three bodies, the
    next handler not run; or handed on after a verification without error,
    and then its subject and role headers hold the verified values, neither
    of them empty. *)
Theorem gate_outcomes (g : Gateway) (r : http.Request) (w : World) :
  bypass r = false ->
  (exists msg w',
      In msg gate_messages
      /\ forall next,
           AuthMiddleware g next r w = (http.Error msg http.StatusUnauthorized, w'))
  \/ (exists token userID role username w',
        BearerFormat (http.Header_Get (http.Header r) "Authorization") token
        /\ validateJWT g token w = ((userID, role, username, None), w')
        /\ (forall next,
              AuthMiddleware g next r w = next (with_identity r userID role username) w')
        /\ http.Header_Get (http.Header (with_identity r userID role username)) "X-User-ID"
           = userID
        /\ http.Header_Get (http.Header (with_identity r userID role username)) "X-User-Role"
           = role
        /\ userID <> EmptyString /\ role <> EmptyString).
Proof.
  intros Hb.
  destruct (is_empty (http.Header_Get (http.Header r) "Authorization")) eqn:He.
  { left. exists "missing Authorization header", w. split; [simpl; tauto |].
    intros next. unfold bypass in Hb. unfold AuthMiddleware. by rewrite Hb, He. }
  destruct (malformed (http.Header_Get (http.Header r) "Authorization")) eqn:Hm.
  { left. exists "invalid Authorization format", w. split; [simpl; tauto |].
    intros next. unfold bypass in Hb. unfold AuthMiddleware. rewrite Hb, He.
    unfold malformed in Hm. cbv zeta. by rewrite Hm. }
  apply malformed_false in Hm as [token Hf].
  destruct (validateJWT g token w) as [[[[userID role] username] [err|]] w'] eqn:Hv.
  - left. exists "invalid JWT", (Logger_Printf w' ("JWT validation failed: " +:+ err)).
    split; [simpl; tauto |].
    by apply (gate_verifier_error g r w w' token userID role username err).
  - right. exists token, userID, role, username, w'.
    pose proof (validateJWT_shape g token w) as Hs. rewrite Hv in Hs. simpl in Hs.
    destruct (identity_headers (http.Header r) userID role username)
      as (Hu & Hr & _ & _).
    split; [exact Hf |]. split; [exact Hv |].
    split. { intros next. by rewrite (gate_verifies g next r w token Hb Hf), Hv. }
    unfold with_identity.
    cbn [http.Request_SetHeader http.Header].
    rewrite !Get_Values, Hu, Hr by reflexivity. by destruct Hs.
Qed.

(** X9.  Outside the bypass prefix a value in bearer format, the token
    empty or not, sends the gate to the verifier exactly once before
    anything else happens: the world the request goes on in, or is rejected
    in, is the verifier's, one log line and at most one call later. *)
Theorem gate_consults_verifier_once (g : Gateway) (r : http.Request) (w : World)
    (token : string) :
  bypass r = false ->
  BearerFormat (http.Header_Get (http.Header r) "Authorization") token ->
  exists w1,
    w1 = snd (validateJWT g token w)
    /\ Logs w1 = Logs w ++ ["Authorizing... Forwarding requet"]
    /\ Calls w1 = match url_Parse (AuthServiceURL (GConfig g) +:+ "/api/auth/jwt") with
                  | inl _ => Calls w
                  | inr _ => Calls w ++ [jwt_request g token]
                  end
    /\ ((exists userID role username, forall next,
            AuthMiddleware g next r w = next (with_identity r userID role username) w1)
        \/ (exists err, forall next,
              AuthMiddleware g next r w
              = (http.Error "invalid JWT" http.StatusUnauthorized,
                 Logger_Printf w1 ("JWT validation failed: " +:+ err)))).
Proof.
  intros Hb Hf. exists (snd (validateJWT g token w)).
  destruct (validateJWT_world g token w) as [Hl Hc].
  split; [reflexivity |]. split; [exact Hl |]. split; [exact Hc |].
  destruct (validateJWT g token w) as [[[[userID role] username] [err|]] w'] eqn:Hv.
  - right. exists err. by apply (gate_verifier_error g r w w' token userID role username err).
  - left. exists userID, role, username. intros next.
    by rewrite (gate_verifies g next r w token Hb Hf), Hv.
Qed.

(** X22.  The gate decides on the path and on the first [Authorization]
    value alone: two requests that agree on these are treated alike,
    whatever their method, query, body and other headers, as far as a next
    handler that does not read the request can tell. *)
Theorem gate_reads_path_and_authorization (g : Gateway) (r1 r2 : http.Request)
    (w : World) (k : World -> http.ResponseRecorder * World) :
  http.Path r1 = http.Path r2 ->
  http.Header_Get (http.Header r1) "Authorization"
  = http.Header_Get (http.Header r2) "Authorization" ->
  AuthMiddleware g (fun _ => k) r1 w = AuthMiddleware g (fun _ => k) r2 w.
Proof.
  intros Hp Ha. unfold AuthMiddleware. rewrite Hp, Ha.
  destruct (strings.HasPrefix _ _); [done |].
  destruct (is_empty _); [done |]. cbv zeta.
  destruct (_ || _); [done |].
  by destruct (validateJWT _ _ _) as [[[[u ro] n] [e|]] w'].
Qed.

End GateMore.

(** ** The router behind the gate *)
Section RouterMore.
Context `{Platform}.
Import handler spec main.

Lemma first_match_In {A : Type} (rts : list (mux.Route A)) (path : string)
    (rt : mux.Route A) :
  mux.first_match rts path = Some rt -> In rt rts /\ mux.Route_Match rt path = true.
Proof.
  induction rts as [|rt' rts IH]; simpl; [done |].
  destruct (mux.Route_Match rt' path) eqn:Hm.
  - intros [= <-]. by split; [left |].
  - intros Hf. destruct (IH Hf). by split; [right |].
Qed.

(** The route taken for a path under the bypass prefix, when there is one. *)
Lemma Match_bypass (g : Gateway) (config : Config) (path : string) :
  strings.HasPrefix path "/api/auth/" = true ->
  in_scope (router g config) path ->
  mux.Match (router g config) path = Some (authRouter g config).
Proof.
  intros Hp Hs. apply HasPrefix_inv in Hp as [rest ->].
  unfold in_scope in Hs. unfold mux.Match, router in *. cbn in Hs. cbn.
  destruct (strings.free_of "010" rest); [reflexivity | by destruct Hs].
Qed.

(** X10.  The router has a route for a path exactly when the path starts
    with [/api/] and holds no line feed after that prefix; every other path
    has no handler, and the gate is not run for it. *)
Theorem router_scope (g : Gateway) (config : Config) (path : string) :
  (in_scope (router g config) path <->
   exists rest, path = "/api/" +:+ rest /\ strings.free_of "010" rest = true)
  /\ (mux.MatchHandler (router g config) path = None <->
      ~ exists rest, path = "/api/" +:+ rest /\ strings.free_of "010" rest = true).
Proof.
  split; [apply in_scope_iff |].
  rewrite <- (in_scope_iff g config path). unfold in_scope, mux.MatchHandler.
  destruct (mux.Match (router g config) path) as [rt|]; simpl.
  - split; [done |]. intros Hn. destruct Hn. exists rt. reflexivity.
  - split; [| done]. intros _ [rt Hrt]. done.
Qed.

(** X11.  Whatever handler the router selects is the gate around the proxy
    handler of the selected route: no route is served without passing
    [AuthMiddleware]. *)
Theorem router_always_gated (g : Gateway) (config : Config) (path : string) (h : Handler) :
  mux.MatchHandler (router g config) path = Some h ->
  exists rt,
    mux.Match (router g config) path = Some rt
    /\ In rt [authRouter g config; blogRouter g config;
              userRouter g config; aspRouter g config]
    /\ h = AuthMiddleware g (mux.RouteHandler rt).
Proof.
  unfold mux.MatchHandler.
  destruct (mux.Match (router g config) path) as [rt|] eqn:Hm; [| done].
  simpl. intros [= <-]. exists rt. split; [done |]. split; [| done].
  by apply first_match_In in Hm as [Hin _].
Qed.

(** X12.  On the paths the router serves, skipping the verification and
    being routed to the auth backend are the same thing: a request goes to
    the auth route exactly when its path is under the bypass prefix, so the
    blog, user and catch-all routes are never reached through the bypass. *)
Theorem bypass_iff_auth_route (g : Gateway) (config : Config) (r : http.Request) :
  in_scope (router g config) (http.Path r) ->
  (bypass r = true <->
   mux.Match (router g config) (http.Path r) = Some (authRouter g config)).
Proof.
  intros Hs. split.
  - intros Hb. by apply Match_bypass.
  - intros Hm. apply first_match_In in Hm as [_ Hm].
    by apply Route_Match_under in Hm.
Qed.

(** X13.  A routed request outside the bypass prefix whose [Authorization]
    header carries no bearer token that verifies is answered with 401 by the
    selected handler itself; no proxy is run for it. *)
Theorem protected_route_needs_token (g : Gateway) (config : Config)
    (r : http.Request) (w : World) (h : Handler) :
  mux.MatchHandler (router g config) (http.Path r) = Some h ->
  bypass r = false ->
  ~ valid_bearer g w (http.Header_Get (http.Header r) "Authorization") ->
  exists msg w', h r w = (http.Error msg http.StatusUnauthorized, w').
Proof.
  unfold mux.MatchHandler.
  destruct (mux.Match (router g config) (http.Path r)) as [rt|]; [| done].
  simpl. intros [= <-] Hb Hn.
  destruct (gate_requires_valid g r w Hb Hn) as (msg & w' & Hrej).
  exists msg, w'. apply Hrej.
Qed.

(** X14.  A routed request outside the bypass prefix whose token verifies
    reaches the reverse proxy of its route, blog, user or catch-all, with
    the identity headers set, after the verifier's log line and the
    "Forwarding" line naming method, path and target address. *)
Theorem protected_route_forwards (g : Gateway) (config : Config)
    (r : http.Request) (w w' : World) (h : Handler)
    (token userID role username : string) :
  mux.MatchHandler (router g config) (http.Path r) = Some h ->
  bypass r = false ->
  BearerFormat (http.Header_Get (http.Header r) "Authorization") token ->
  validateJWT g token w = ((userID, role, username, None), w') ->
  exists proxy targetURL,
    In (proxy, targetURL)
       [(BlogProxy g, BlogServiceURL config); (UserProxy g, UserServiceURL config);
        (AspProxy g, AspServiceURL config)]
    /\ h r w
       = proxy_ServeHTTP (Target proxy) (with_identity r userID role username)
           (Logger_Printf w'
              ("Forwarding " +:+ http.Method r +:+ " " +:+ http.Path r
                 +:+ " to " +:+ targetURL)).
Proof.
  unfold mux.MatchHandler.
  destruct (mux.Match (router g config) (http.Path r)) as [rt|] eqn:Hm; [| done].
  simpl. intros [= <-] Hb Hf Hv.
  rewrite (gate_verifies g _ r w token Hb Hf), Hv.
  apply first_match_In in Hm as [Hin Hm]. simpl in Hin.
  destruct Hin as [<-|[<-|[<-|[<-|[]]]]].
  - apply Route_Match_under in Hm. unfold bypass in Hb. cbn in Hm. congruence.
  - exists (BlogProxy g), (BlogServiceURL config). split; [simpl; tauto | reflexivity].
  - exists (UserProxy g), (UserServiceURL config). split; [simpl; tauto | reflexivity].
  - exists (AspProxy g), (AspServiceURL config). split; [simpl; tauto | reflexivity].
Qed.

(** X23.  The catch-all rule accepts every path that any rule of the table
    accepts, so it is the order of registration, with the catch-all last,
    that keeps the specific routes reachable. *)
Theorem catch_all_accepts_all (g : Gateway) (config : Config) (path : string)
    (rt : mux.Route Handler) :
  In rt (mux.routes (router g config)) ->
  mux.Route_Match rt path = true ->
  mux.Route_Match (aspRouter g config) path = true.
Proof.
  intros Hin Hm. apply Route_Match_inv in Hm as (rest & -> & Hrest).
  simpl in Hin. destruct Hin as [<-|[<-|[<-|[<-|[]]]]].
  - change (mux.Route_Match (aspRouter g config) ("/api/" +:+ ("auth/" +:+ rest)) = true).
    by rewrite aspRouter_matches, free_of_app, Hrest.
  - change (mux.Route_Match (aspRouter g config) ("/api/" +:+ ("blog/" +:+ rest)) = true).
    by rewrite aspRouter_matches, free_of_app, Hrest.
  - change (mux.Route_Match (aspRouter g config) ("/api/" +:+ ("user/" +:+ rest)) = true).
    by rewrite aspRouter_matches, free_of_app, Hrest.
  - change (mux.Route_Match (aspRouter g config) ("/api/" +:+ rest) = true).
    by rewrite aspRouter_matches.
Qed.

End RouterMore.

(** ** Construction and startup *)
Section StartupMore.
Context `{Platform}.
Import handler spec main.

(** X15.  [NewGateway] succeeds exactly when the four addresses parse, and
    then the gateway keeps the configuration it was given and each proxy
    targets the parsed address of its own service. *)
Theorem NewGateway_iff (config : Config) (g : Gateway) :
  NewGateway config = inr g <->
  GConfig g = config
  /\ url_Parse (AuthServiceURL config) = inr (Target (AuthProxy g))
  /\ url_Parse (BlogServiceURL config) = inr (Target (BlogProxy g))
  /\ url_Parse (UserServiceURL config) = inr (Target (UserProxy g))
  /\ url_Parse (AspServiceURL config) = inr (Target (AspProxy g)).
Proof.
  split.
  - intros Hg. split; [by apply NewGateway_config | by apply NewGateway_parsed].
  - intros (Hc & Ha & Hb & Hu & Hp). unfold NewGateway.
    rewrite Ha, Hb, Hu, Hp. subst config.
    by destruct g as [c [a] [b] [u] [p]].
Qed.

(** X16.  [NewGateway] reports the first address that does not parse, in
    the order auth, blog, user, catch-all, under the name of its service
    and with the parser's error; later addresses are not looked at. *)
Theorem NewGateway_first_error (config : Config) (err : error) :
  (url_Parse (AuthServiceURL config) = inl err ->
   NewGateway config = inl ("invalid auth service URL: " +:+ err))
  /\ ((exists a, url_Parse (AuthServiceURL config) = inr a) ->
      url_Parse (BlogServiceURL config) = inl err ->
      NewGateway config = inl ("invalid blog service URL: " +:+ err))
  /\ ((exists a, url_Parse (AuthServiceURL config) = inr a) ->
      (exists b, url_Parse (BlogServiceURL config) = inr b) ->
      url_Parse (UserServiceURL config) = inl err ->
      NewGateway config = inl ("invalid user service URL: " +:+ err))
  /\ ((exists a, url_Parse (AuthServiceURL config) = inr a) ->
      (exists b, url_Parse (BlogServiceURL config) = inr b) ->
      (exists u, url_Parse (UserServiceURL config) = inr u) ->
      url_Parse (AspServiceURL config) = inl err ->
      NewGateway config = inl ("invalid asp service URL: " +:+ err)).
Proof.
  unfold NewGateway. repeat split.
  - by intros ->.
  - by intros [a ->] ->.
  - by intros [a ->] [b ->] ->.
  - by intros [a ->] [b ->] [u ->] ->.
Qed.

(** X17.  A required variable that is unset or set to the empty string ends
    the start with "Missing required environment variables", before any
    address is parsed, in both mains. *)
Theorem startup_missing_variable (dotenv : option error) (env : gmap string string)
    (key : string) :
  In key required ->
  env !! key = None \/ env !! key = Some EmptyString ->
  main None env = Fatal "Missing required environment variables"
  /\ main_cors dotenv env = Fatal "Missing required environment variables".
Proof.
  intros Hkey Hbad.
  assert (is_empty (Getenv env key) = true) as He.
  { unfold Getenv. by destruct Hbad as [-> | ->]. }
  assert (configure env = Fatal "Missing required environment variables") as Hc.
  { unfold configure. cbv zeta. simpl AuthServiceURL. simpl BlogServiceURL.
    simpl UserServiceURL. simpl AspServiceURL.
    simpl in Hkey. destruct Hkey as [<-|[<-|[<-|[<-|[]]]]]; rewrite He;
      by rewrite ?orb_true_r. }
  by split.
Qed.


End StartupMore.

(** ** The library functions the gate relies on *)
Section LibraryMore.

(** X19.  Splitting on a separator loses nothing: the parts joined by the
    separator give the string back, no part holds the separator, and there
    is one part more than there are separators, so never none. *)
Theorem Split_Join (s : string) (sep : ascii) :
  strings.Join (strings.Split s sep) sep = s
  /\ Forall (fun p => strings.free_of sep p = true) (strings.Split s sep)
  /\ length (strings.Split s sep) = S (strings.Count s sep).
Proof.
  split; [| split; [apply Split_parts_free |]].
  - induction s as [|c s IH]; [done |].
    cbn [strings.Split].
    destruct (strings.Split s sep) as [|p ps] eqn:Hs;
      [by destruct (Split_nonempty s sep) |].
    destruct (Ascii.eqb c sep) eqn:Hc.
    + apply Ascii.eqb_eq in Hc as ->.
      change (String sep (strings.Join (p :: ps) sep) = String sep s).
      by rewrite IH.
    + rewrite <- IH. by destruct ps.
  - induction s as [|c s IH]; simpl; [done |].
    destruct (Ascii.eqb c sep); simpl; [by rewrite IH |].
    destruct (strings.Split s sep) as [|p ps] eqn:Hs;
      [by destruct (Split_nonempty s sep) |].
    exact IH.
Qed.

Ltac by_cases_on_byte c :=
  destruct c as [[|] [|] [|] [|] [|] [|] [|] [|]]; reflexivity.

Lemma toLower_toLower (c : ascii) :
  textproto.toLower (textproto.toLower c) = textproto.toLower c.
Proof. by_cases_on_byte c. Qed.

Lemma toUpper_toUpper (c : ascii) :
  textproto.toUpper (textproto.toUpper c) = textproto.toUpper c.
Proof. by_cases_on_byte c. Qed.

Lemma toUpper_toLower (c : ascii) :
  textproto.toUpper (textproto.toLower c) = textproto.toUpper c.
Proof. by_cases_on_byte c. Qed.

Lemma valid_toLower (c : ascii) :
  textproto.validHeaderFieldByte (textproto.toLower c)
  = textproto.validHeaderFieldByte c.
Proof. by_cases_on_byte c. Qed.

Lemma valid_toUpper (c : ascii) :
  textproto.validHeaderFieldByte (textproto.toUpper c)
  = textproto.validHeaderFieldByte c.
Proof. by_cases_on_byte c. Qed.

Lemma all_valid_recase (upper : bool) (s : string) :
  textproto.all_valid (textproto.recase upper s) = textproto.all_valid s.
Proof.
  revert upper. induction s as [|c s IH]; intros upper; simpl; [done |].
  rewrite IH. by destruct upper; rewrite ?valid_toUpper, ?valid_toLower.
Qed.

Lemma recase_recase (upper : bool) (s : string) :
  textproto.recase upper (textproto.recase upper s) = textproto.recase upper s.
Proof.
  revert upper. induction s as [|c s IH]; intros upper; simpl; [done |].
  destruct upper; rewrite ?toUpper_toUpper, ?toLower_toLower, IH; done.
Qed.

Lemma all_valid_ToLower (s : string) :
  textproto.all_valid (textproto.ToLower s) = textproto.all_valid s.
Proof.
  induction s as [|c s IH]; simpl; [done |]. by rewrite IH, valid_toLower.
Qed.

Lemma recase_ToLower (upper : bool) (s : string) :
  textproto.recase upper (textproto.ToLower s) = textproto.recase upper s.
Proof.
  revert upper. induction s as [|c s IH]; intros upper; simpl; [done |].
  destruct upper; rewrite ?toUpper_toLower, ?toLower_toLower, IH; done.
Qed.

Lemma Canonical_idempotent (s : string) :
  textproto.CanonicalMIMEHeaderKey (textproto.CanonicalMIMEHeaderKey s)
  = textproto.CanonicalMIMEHeaderKey s.
Proof.
  unfold textproto.CanonicalMIMEHeaderKey.
  destruct (textproto.all_valid s) eqn:Hv.
  - by rewrite all_valid_recase, Hv, recase_recase.
  - by rewrite Hv.
Qed.

(** X20.  A canonical header key is a fixed point of the canonical form, so
    [Header.Set] under any key keeps a header map whose keys are all
    canonical in that state, and reading back the key just set gives the
    value set. *)
Theorem Header_Set_canonical (h : gmap string (list string)) (key value : string) :
  textproto.CanonicalMIMEHeaderKey (textproto.CanonicalMIMEHeaderKey key)
  = textproto.CanonicalMIMEHeaderKey key
  /\ (spec.canonical_keys h -> spec.canonical_keys (http.Header_Set h key value))
  /\ http.Header_Get (http.Header_Set h key value) key = value.
Proof.
  split; [apply Canonical_idempotent |]. split.
  - apply canonical_keys_Set, Canonical_idempotent.
  - by rewrite Get_Values, Values_Set_same.
Qed.

(** X21.  Header names made of token bytes are matched without regard to
    letter case: the lower-case spelling of such a name has the same
    canonical key, so a value the caller sent under it is the one
    [Header.Set] replaces and [Header.Get] reads. *)
Theorem header_names_ignore_case (h : gmap string (list string)) (key value : string) :
  textproto.all_valid key = true ->
  textproto.CanonicalMIMEHeaderKey (textproto.ToLower key)
  = textproto.CanonicalMIMEHeaderKey key
  /\ http.Header_Values (http.Header_Set h key value) (textproto.ToLower key) = [value]
  /\ http.Header_Get h (textproto.ToLower key) = http.Header_Get h key.
Proof.
  intros Hv.
  assert (textproto.CanonicalMIMEHeaderKey (textproto.ToLower key)
          = textproto.CanonicalMIMEHeaderKey key) as Hk.
  { unfold textproto.CanonicalMIMEHeaderKey.
    by rewrite all_valid_ToLower, Hv, recase_ToLower. }
  split; [exact Hk |]. split.
  - by apply Values_Set_same.
  - unfold http.Header_Get. by rewrite Hk.
Qed.

End LibraryMore.

(** * The claims on the sample platform *)

#[local] Existing Instance sample.platform.
Import handler spec main.

Lemma bypass_skips_verifier_witness :
  bypass (sample.request "/api/auth/login" "junk") = true
  /\ AuthMiddleware sample.gateway sample.next
       (sample.request "/api/auth/login" "junk") sample.world0
     = sample.next (sample.request "/api/auth/login" "junk") sample.world0.
Proof.
  split; [reflexivity |].
  apply (bypass_skips_verifier sample.gateway sample.next
           (sample.request "/api/auth/login" "junk") sample.world0).
  reflexivity.
Defined.

Lemma extra_segment_not_bearer :
  ~ exists token,
      BearerFormat
        (http.Header_Get (http.Header (sample.request "/api/blog/posts/5" "Bearer a b"))
           "Authorization") token.
Proof.
  intros Hex. apply malformed_false in Hex. vm_compute in Hex. discriminate Hex.
Qed.

Lemma malformed_authorization_unauthorized_witness :
  bypass (sample.request "/api/blog/posts/5" "Bearer a b") = false
  /\ exists msg, forall next,
       AuthMiddleware sample.gateway next
         (sample.request "/api/blog/posts/5" "Bearer a b") sample.world0
       = (http.Error msg http.StatusUnauthorized, sample.world0)
       /\ http.Code (fst (AuthMiddleware sample.gateway next
                            (sample.request "/api/blog/posts/5" "Bearer a b")
                            sample.world0)) = 401
       /\ Calls (snd (AuthMiddleware sample.gateway next
                        (sample.request "/api/blog/posts/5" "Bearer a b")
                        sample.world0)) = Calls sample.world0.
Proof.
  split; [reflexivity |].
  apply (malformed_authorization_unauthorized sample.gateway
           (sample.request "/api/blog/posts/5" "Bearer a b") sample.world0).
  - reflexivity.
  - exact extra_segment_not_bearer.
Defined.

Lemma good_is_bearer :
  BearerFormat
    (http.Header_Get (http.Header (sample.request "/api/blog/posts/5" "Bearer good"))
       "Authorization") "good".
Proof. split; reflexivity. Qed.

Lemma verified_identity_overwrites_witness :
  validateJWT sample.gateway "good" sample.world0
    = (("u1", "admin", "alice", None), after_call sample.gateway "good" sample.world0)
  /\ exists r',
       (forall next,
          AuthMiddleware sample.gateway next
            (sample.request "/api/blog/posts/5" "Bearer good") sample.world0
          = next r' (after_call sample.gateway "good" sample.world0))
       /\ http.Header_Values (http.Header r') "x-user-id" = ["u1"]
       /\ http.Header_Values (http.Header r') "X-User-Role" = ["admin"]
       /\ http.Header_Values (http.Header r') "X-Username" = ["alice"].
Proof.
  assert (validateJWT sample.gateway "good" sample.world0
          = (("u1", "admin", "alice", None),
             after_call sample.gateway "good" sample.world0)) as Hv.
  { vm_compute. reflexivity. }
  split; [exact Hv |].
  destruct (verified_identity_overwrites sample.gateway
              (sample.request "/api/blog/posts/5" "Bearer good")
              sample.world0 (after_call sample.gateway "good" sample.world0)
              "good" "u1" "admin" "alice" eq_refl good_is_bearer Hv)
    as (r' & Hnext & _ & Hu & Hr & Hn & _).
  exists r'. split; [exact Hnext |].
  split; [apply Hu; reflexivity |].
  split; [apply Hr; reflexivity | apply Hn; reflexivity].
Defined.

Lemma half_answer :
  AuthService_answers sample.gateway "half" sample.world0
    {| http.StatusCode := 200; http.RespBody := "- admin -" |}.
Proof. split; [by eexists | reflexivity]. Qed.

Lemma incomplete_identity_is_failure_witness :
  validateJWT sample.gateway "half" sample.world0
  = ((EmptyString, EmptyString, EmptyString,
      Some "invalid AuthService response: missing userID or role"),
     after_call sample.gateway "half" sample.world0).
Proof.
  apply (incomplete_identity_is_failure sample.gateway "half" sample.world0
           {| http.StatusCode := 200; http.RespBody := "- admin -" |}
           {| UserID := ""; Role := "admin"; Username := ""; Error := "" |}).
  - exact half_answer.
  - reflexivity.
  - reflexivity.
  - left. reflexivity.
Defined.

Lemma expired_answer :
  AuthService_answers sample.gateway "expired" sample.world0
    {| http.StatusCode := 401; http.RespBody := "error: token expired" |}.
Proof. split; [by eexists | reflexivity]. Qed.

Lemma non_success_status_error_witness :
  validateJWT sample.gateway "expired" sample.world0
  = ((EmptyString, EmptyString, EmptyString, Some "AuthService error: token expired"),
     after_call sample.gateway "expired" sample.world0).
Proof.
  apply (non_success_status_error sample.gateway "expired" sample.world0
           {| http.StatusCode := 401; http.RespBody := "error: token expired" |}
           {| UserID := ""; Role := ""; Username := ""; Error := "token expired" |}
           None).
  - exact expired_answer.
  - discriminate.
  - reflexivity.
  - reflexivity.
  - discriminate.
Defined.

Lemma down_is_bearer :
  BearerFormat
    (http.Header_Get (http.Header (sample.request "/api/user/7" "Bearer down"))
       "Authorization") "down".
Proof. split; reflexivity. Qed.

Lemma verifier_error_is_unauthorized_witness :
  http.Code (fst (AuthMiddleware sample.gateway sample.next
                    (sample.request "/api/user/7" "Bearer down") sample.world0)) = 401
  /\ Logs (snd (AuthMiddleware sample.gateway sample.next
                  (sample.request "/api/user/7" "Bearer down") sample.world0))
     = ["Authorizing... Forwarding requet";
        "JWT validation failed: failed to contact AuthService: dial tcp: connection refused"].
Proof.
  destruct (verifier_error_is_unauthorized sample.gateway
              (sample.request "/api/user/7" "Bearer down")
              sample.world0 (after_call sample.gateway "down" sample.world0)
              "down" "" "" ""
              "failed to contact AuthService: dial tcp: connection refused")
    with (next := sample.next) as (_ & Hcode & _ & Hlogs & _).
  - reflexivity.
  - exact down_is_bearer.
  - vm_compute. reflexivity.
  - split; [exact Hcode | exact Hlogs].
Defined.

Lemma router_prefers_specific_prefix_witness :
  mux.Match (router sample.gateway sample.config) "/api/blog/posts/5"
  = Some (blogRouter sample.gateway sample.config).
Proof.
  apply (router_prefers_specific_prefix sample.gateway sample.config "/api/blog/posts/5").
  - by eexists.
  - reflexivity.
Defined.

Lemma startup_refuses_bad_address_witness :
  sample.env_without_blog !! "BLOG_SERVICE_URL" = None
  /\ exists msg, main None sample.env_without_blog = Fatal msg.
Proof.
  split; [reflexivity |].
  apply (startup_refuses_bad_address None sample.env_without_blog "BLOG_SERVICE_URL").
  - simpl. tauto.
  - left. reflexivity.
Defined.

Lemma auth_without_slash_is_gated_witness :
  bypass (sample.anonymous "/api/auth") = false
  /\ mux.Match (router sample.gateway sample.config)
       (http.Path (sample.anonymous "/api/auth"))
     = Some (aspRouter sample.gateway sample.config).
Proof.
  destruct (auth_without_slash_is_gated sample.gateway sample.config
              (sample.anonymous "/api/auth") sample.world0 eq_refl)
    as (Hb & Hm & _).
  split; [exact Hb | exact Hm].
Defined.

Lemma bypass_keeps_headers_witness :
  exists r',
    AuthMiddleware sample.gateway sample.next
      (sample.request "/api/auth/login" "junk") sample.world0
    = sample.next r' sample.world0
    /\ http.Header r' = http.Header (sample.request "/api/auth/login" "junk")
    /\ forall key,
         http.Header_Values (http.Header r') key
         = http.Header_Values (http.Header (sample.request "/api/auth/login" "junk")) key.
Proof.
  apply (bypass_keeps_headers sample.gateway sample.config
           (sample.request "/api/auth/login" "junk") sample.world0).
  reflexivity.
Defined.

(** * The further properties on the sample platform *)

Lemma verifier_bad_address_witness :
  validateJWT sample.broken_gateway "good" sample.world0
  = ((EmptyString, EmptyString, EmptyString,
      Some ("failed to create validation request: "
              +:+ "net/url: invalid control character in URL")),
     Logger_Printf sample.world0 "Authorizing... Forwarding requet").
Proof.
  apply (verifier_bad_address sample.broken_gateway "good" sample.world0
           "net/url: invalid control character in URL").
  reflexivity.
Defined.

Lemma verifier_unreachable_witness :
  validateJWT sample.gateway "down" sample.world0
  = ((EmptyString, EmptyString, EmptyString,
      Some ("failed to contact AuthService: " +:+ "dial tcp: connection refused")),
     after_call sample.gateway "down" sample.world0).
Proof.
  apply (verifier_unreachable sample.gateway "down" sample.world0
           "dial tcp: connection refused").
  - by eexists.
  - reflexivity.
Defined.

Lemma garbled_answer :
  @AuthService_answers sample.garbled sample.garbled_gateway "good" sample.world0
    {| http.StatusCode := 200; http.RespBody := "<html>" |}.
Proof. split; [by eexists | reflexivity]. Qed.

Lemma verifier_undecodable_witness :
  @validateJWT sample.garbled sample.garbled_gateway "good" sample.world0
  = ((EmptyString, EmptyString, EmptyString,
      Some ("failed to decode AuthService response: "
              +:+ "invalid character '<' looking for beginning of value")),
     @after_call sample.garbled sample.garbled_gateway "good" sample.world0).
Proof.
  apply (@verifier_undecodable sample.garbled sample.garbled_gateway "good" sample.world0
           {| http.StatusCode := 200; http.RespBody := "<html>" |}
           {| UserID := ""; Role := ""; Username := ""; Error := "" |}
           "invalid character '<' looking for beginning of value").
  - exact garbled_answer.
  - reflexivity.
  - reflexivity.
Defined.

Lemma good_answer :
  AuthService_answers sample.gateway "good" sample.world0
    {| http.StatusCode := 200; http.RespBody := "u1 admin alice" |}.
Proof. split; [by eexists | reflexivity]. Qed.

Lemma verifier_accepts_witness :
  validateJWT sample.gateway "good" sample.world0
  = (("u1", "admin", "alice", None), after_call sample.gateway "good" sample.world0).
Proof.
  apply (verifier_accepts sample.gateway "good" sample.world0
           {| http.StatusCode := 200; http.RespBody := "u1 admin alice" |}
           {| UserID := "u1"; Role := "admin"; Username := "alice"; Error := "" |}).
  - exact good_answer.
  - reflexivity.
  - reflexivity.
  - discriminate.
  - discriminate.
Defined.

Lemma gate_rejection_bodies_witness :
  AuthMiddleware sample.gateway sample.next
    (sample.anonymous "/api/blog/posts/5") sample.world0
  = (http.Error "missing Authorization header" http.StatusUnauthorized, sample.world0).
Proof.
  apply (gate_rejection_bodies sample.gateway (sample.anonymous "/api/blog/posts/5")
           sample.world0).
  - reflexivity.
  - reflexivity.
Defined.

Lemma gate_outcomes_witness :
  (exists msg w',
      In msg gate_messages
      /\ forall next,
           AuthMiddleware sample.gateway next
             (sample.request "/api/blog/posts/5" "Bearer half") sample.world0
           = (http.Error msg http.StatusUnauthorized, w'))
  \/ (exists token userID role username w',
        BearerFormat
          (http.Header_Get (http.Header (sample.request "/api/blog/posts/5" "Bearer half"))
             "Authorization") token
        /\ validateJWT sample.gateway token sample.world0
           = ((userID, role, username, None), w')
        /\ (forall next,
              AuthMiddleware sample.gateway next
                (sample.request "/api/blog/posts/5" "Bearer half") sample.world0
              = next (with_identity (sample.request "/api/blog/posts/5" "Bearer half")
                        userID role username) w')
        /\ http.Header_Get
             (http.Header (with_identity (sample.request "/api/blog/posts/5" "Bearer half")
                             userID role username)) "X-User-ID" = userID
        /\ http.Header_Get
             (http.Header (with_identity (sample.request "/api/blog/posts/5" "Bearer half")
                             userID role username)) "X-User-Role" = role
        /\ userID <> EmptyString /\ role <> EmptyString).
Proof.
  apply (gate_outcomes sample.gateway (sample.request "/api/blog/posts/5" "Bearer half")
           sample.world0).
  reflexivity.
Defined.

Lemma gate_consults_verifier_once_witness :
  exists w1,
    w1 = snd (validateJWT sample.gateway "good" sample.world0)
    /\ Logs w1 = Logs sample.world0 ++ ["Authorizing... Forwarding requet"]
    /\ Calls w1 = Calls sample.world0 ++ [jwt_request sample.gateway "good"].
Proof.
  destruct (gate_consults_verifier_once sample.gateway
              (sample.request "/api/blog/posts/5" "Bearer good") sample.world0 "good"
              eq_refl good_is_bearer)
    as (w1 & Hw & Hl & Hc & _).
  exists w1. split; [exact Hw |]. split; [exact Hl | exact Hc].
Defined.

Lemma router_always_gated_witness :
  exists rt,
    mux.Match (router sample.gateway sample.config) "/api/user/7" = Some rt
    /\ In rt [authRouter sample.gateway sample.config; blogRouter sample.gateway sample.config;
              userRouter sample.gateway sample.config; aspRouter sample.gateway sample.config]
    /\ AuthMiddleware sample.gateway
         (ProxyHandler (UserProxy sample.gateway) (UserServiceURL sample.config))
       = AuthMiddleware sample.gateway (mux.RouteHandler rt).
Proof.
  apply (router_always_gated sample.gateway sample.config "/api/user/7"
           (AuthMiddleware sample.gateway
              (ProxyHandler (UserProxy sample.gateway) (UserServiceURL sample.config)))).
  reflexivity.
Defined.

Lemma bypass_iff_auth_route_witness :
  bypass (sample.request "/api/auth/login" "junk") = true <->
  mux.Match (router sample.gateway sample.config)
    (http.Path (sample.request "/api/auth/login" "junk"))
  = Some (authRouter sample.gateway sample.config).
Proof.
  apply (bypass_iff_auth_route sample.gateway sample.config
           (sample.request "/api/auth/login" "junk")).
  by eexists.
Defined.

Lemma anonymous_not_valid :
  ~ valid_bearer sample.gateway sample.world0
      (http.Header_Get (http.Header (sample.anonymous "/api/blog/posts/5")) "Authorization").
Proof. intros (token & u & ro & n & w' & [Heq _] & _). discriminate Heq. Qed.

Lemma protected_route_needs_token_witness :
  exists msg w',
    AuthMiddleware sample.gateway
      (ProxyHandler (BlogProxy sample.gateway) (BlogServiceURL sample.config))
      (sample.anonymous "/api/blog/posts/5") sample.world0
    = (http.Error msg http.StatusUnauthorized, w').
Proof.
  apply (protected_route_needs_token sample.gateway sample.config
           (sample.anonymous "/api/blog/posts/5") sample.world0
           (AuthMiddleware sample.gateway
              (ProxyHandler (BlogProxy sample.gateway) (BlogServiceURL sample.config)))).
  - reflexivity.
  - reflexivity.
  - exact anonymous_not_valid.
Defined.

Lemma good_verifies :
  validateJWT sample.gateway "good" sample.world0
  = (("u1", "admin", "alice", None), after_call sample.gateway "good" sample.world0).
Proof. vm_compute. reflexivity. Qed.

Lemma protected_route_forwards_witness :
  exists proxy targetURL,
    In (proxy, targetURL)
       [(BlogProxy sample.gateway, BlogServiceURL sample.config);
        (UserProxy sample.gateway, UserServiceURL sample.config);
        (AspProxy sample.gateway, AspServiceURL sample.config)]
    /\ AuthMiddleware sample.gateway
         (ProxyHandler (BlogProxy sample.gateway) (BlogServiceURL sample.config))
         (sample.request "/api/blog/posts/5" "Bearer good") sample.world0
       = proxy_ServeHTTP (Target proxy)
           (with_identity (sample.request "/api/blog/posts/5" "Bearer good")
              "u1" "admin" "alice")
           (Logger_Printf (after_call sample.gateway "good" sample.world0)
              ("Forwarding "
                 +:+ http.Method (sample.request "/api/blog/posts/5" "Bearer good")
                 +:+ " " +:+ http.Path (sample.request "/api/blog/posts/5" "Bearer good")
                 +:+ " to " +:+ targetURL)).
Proof.
  apply (protected_route_forwards sample.gateway sample.config
           (sample.request "/api/blog/posts/5" "Bearer good") sample.world0
           (after_call sample.gateway "good" sample.world0)
           (AuthMiddleware sample.gateway
              (ProxyHandler (BlogProxy sample.gateway) (BlogServiceURL sample.config)))
           "good" "u1" "admin" "alice").
  - reflexivity.
  - reflexivity.
  - exact good_is_bearer.
  - exact good_verifies.
Defined.

Lemma NewGateway_first_error_witness :
  NewGateway sample.broken_config
  = inl ("invalid auth service URL: " +:+ "net/url: invalid control character in URL").
Proof.
  apply (NewGateway_first_error sample.broken_config
           "net/url: invalid control character in URL").
  reflexivity.
Defined.

Lemma startup_missing_variable_witness :
  main None sample.env_empty_user = Fatal "Missing required environment variables".
Proof.
  apply (startup_missing_variable None sample.env_empty_user "USER_SERVICE_URL").
  - simpl. tauto.
  - right. reflexivity.
Defined.



Lemma header_names_ignore_case_witness :
  textproto.CanonicalMIMEHeaderKey (textproto.ToLower "X-User-ID")
  = textproto.CanonicalMIMEHeaderKey "X-User-ID".
Proof.
  apply (header_names_ignore_case ∅ "X-User-ID" "u1").
  reflexivity.
Defined.

Lemma gate_reads_path_and_authorization_witness :
  AuthMiddleware sample.gateway (fun _ => sample.next (sample.anonymous "/"))
    (sample.request "/api/blog/posts/5" "Bearer good") sample.world0
  = AuthMiddleware sample.gateway (fun _ => sample.next (sample.anonymous "/"))
      (sample.preflight "/api/blog/posts/5" "Bearer good") sample.world0.
Proof.
  apply (gate_reads_path_and_authorization sample.gateway
           (sample.request "/api/blog/posts/5" "Bearer good")
           (sample.preflight "/api/blog/posts/5" "Bearer good")
           sample.world0 (sample.next (sample.anonymous "/"))).
  - reflexivity.
  - reflexivity.
Defined.

Lemma catch_all_accepts_all_witness :
  mux.Route_Match (aspRouter sample.gateway sample.config) "/api/blog/posts/5" = true.
Proof.
  apply (catch_all_accepts_all sample.gateway sample.config "/api/blog/posts/5"
           (blogRouter sample.gateway sample.config)).
  - simpl. tauto.
  - reflexivity.
Defined.
